(** * sunraster.spectrogram: axis-name resolution and exposure-time correction

    A shallow embedding of [sunraster/spectrogram.py].  Python exceptions are
    values of [exn] carried by the error monad [result]; numpy arrays are a
    shape together with a row-major buffer; an astropy unit is represented by
    its decomposition into irreducible bases. *)

From stdpp Require Import base list strings gmap numbers pretty.
From Stdlib Require Import Ascii QArith Qcanon.

Local Close Scope Qc_scope.
Local Close Scope Q_scope.
Local Open Scope string_scope.
Local Open Scope list_scope.
Local Open Scope nat_scope.

(** ** Exceptions and the error monad *)

Inductive exn : Type :=
| ValueError (msg : string)
| NameError (name : string)
| TypeError (msg : string)
| AttributeError (msg : string)
| IndexError (msg : string)
| KeyError (key : string).

Inductive result (A : Type) : Type :=
| Ok (a : A)
| Raise (e : exn).
Arguments Ok {A} a.
Arguments Raise {A} e.

#[global] Instance result_ret : MRet result := λ A a, Ok a.
#[global] Instance result_bind : MBind result := λ A B f m,
  match m with
  | Ok a => f a
  | Raise e => Raise e
  end.

(** ** Module-level constants (lines 11-50) *)

Definition APPLY_EXPOSURE_TIME_ERROR : string :=
  "Exposure time correction has probably already " +:+
  "been applied since the unit already includes " +:+
  "inverse time. To apply exposure time correction " +:+
  "anyway, set 'force' kwarg to True.".

Definition UNDO_EXPOSURE_TIME_ERROR : string :=
  "Exposure time correction has probably already " +:+
  "been undone since the unit does not include " +:+
  "inverse time. To undo exposure time correction " +:+
  "anyway, set 'force' kwarg to True.".

Definition AXIS_NOT_FOUND_ERROR : string :=
  " axis not found. If in extra_coords, axis name must be supported: ".

(** [str.upper] and [str.capitalize], on ASCII text. *)
Definition ascii_upper (c : ascii) : ascii :=
  let n := nat_of_ascii c in
  if (97 <=? n)%nat && (n <=? 122)%nat then ascii_of_nat (n - 32) else c.

Definition ascii_lower (c : ascii) : ascii :=
  let n := nat_of_ascii c in
  if (65 <=? n)%nat && (n <=? 90)%nat then ascii_of_nat (n + 32) else c.

Fixpoint string_map (f : ascii → ascii) (s : string) : string :=
  match s with
  | EmptyString => EmptyString
  | String c s' => String (f c) (string_map f s')
  end.

Definition upper (s : string) : string := string_map ascii_upper s.

Definition capitalize (s : string) : string :=
  match s with
  | EmptyString => EmptyString
  | String c s' => String (ascii_upper c) (string_map ascii_lower s')
  end.

(** [names += [name.upper() ...] + [name.capitalize() ...]] *)
Definition with_case_variants (names : list string) : list string :=
  names ++ (upper <$> names) ++ (capitalize <$> names).

Definition SUPPORTED_LONGITUDE_NAMES : list string :=
  with_case_variants
    ["custom:pos.helioprojective.lon"; "pos.helioprojective.lon"; "longitude"; "lon"].

Definition SUPPORTED_LATITUDE_NAMES : list string :=
  with_case_variants
    ["custom:pos.helioprojective.lat"; "pos.helioprojective.lat"; "latitude"; "lat"].

Definition SUPPORTED_SPECTRAL_NAMES : list string :=
  with_case_variants
    ["em.wl"; "em.energy"; "em.freq"; "wavelength"; "energy"; "frequency"; "freq";
     "lambda"; "spectral"].

Definition SUPPORTED_TIME_NAMES : list string :=
  with_case_variants ["time"].

Definition SUPPORTED_EXPOSURE_NAMES : list string :=
  with_case_variants
    ["exposure time"; "exposure_time"; "exposure times"; "exposure_times";
     "exp time"; "exp_time"; "exp times"; "exp_times"].

(** The module namespace: the names the module binds at import time.  A read
    of any other global name raises [NameError]. *)
Definition module_globals : list (string * list string) :=
  [ ("SUPPORTED_LONGITUDE_NAMES", SUPPORTED_LONGITUDE_NAMES);
    ("SUPPORTED_LATITUDE_NAMES", SUPPORTED_LATITUDE_NAMES);
    ("SUPPORTED_SPECTRAL_NAMES", SUPPORTED_SPECTRAL_NAMES);
    ("SUPPORTED_TIME_NAMES", SUPPORTED_TIME_NAMES);
    ("SUPPORTED_EXPOSURE_NAMES", SUPPORTED_EXPOSURE_NAMES) ].

Fixpoint assoc_lookup {V} (k : string) (l : list (string * V)) : option V :=
  match l with
  | [] => None
  | (k', v) :: l' => if String.eqb k k' then Some v else assoc_lookup k l'
  end.

Definition load_global (name : string) : result (list string) :=
  match assoc_lookup name module_globals with
  | Some v => Ok v
  | None => Raise (NameError name)
  end.

(** ** Axis-name resolution (lines 292-333) *)

(** Python truthiness of a value that is [None] or a string. *)
Definition truthy (name : option string) : bool :=
  match name with
  | Some s => negb (String.eqb s "")
  | None => false
  end.

(** [np.isin(names_array, supported_names)]: an element of the array is
    either a string or [None] (a slot without a physical type), and [None]
    equals no string. *)
Definition is_supported (supported_names : list string) (x : option string) : bool :=
  match x with
  | Some s => bool_decide (s ∈ supported_names)
  | None => false
  end.

Definition np_isin (names_array : list (option string)) (supported_names : list string)
  : list bool :=
  is_supported supported_names <$> names_array.

(** [mask.sum()] *)
Definition np_sum (mask : list bool) : nat := length (filter (λ b, b = true) mask).

(** [a[mask]]: boolean-mask selection. *)
Fixpoint np_select {A} (a : list A) (mask : list bool) : list A :=
  match a, mask with
  | x :: a', b :: mask' => if b then x :: np_select a' mask' else np_select a' mask'
  | _, _ => []
  end.

(** [int(a)] for a one-dimensional integer array [a]: an array of size one
    converts to its element, any other raises. *)
Definition py_int (a : list nat) : result nat :=
  match a with
  | [i] => Ok i
  | _ => Raise (TypeError "only size-1 arrays can be converted to Python scalars")
  end.

Definition _find_name_in_array (supported_names : list string)
    (names_array : list (option string)) : result (option string) :=
  let name_index := np_isin names_array supported_names in
  if (0 <? np_sum name_index)%nat then
    name_index ← py_int (np_select (seq 0 (length names_array)) name_index);
    match names_array !! name_index with
    | Some x => Ok x
    | None => Raise (IndexError "index out of bounds")
    end
  else Ok None.

(** The side table [extra_coords] is [None] or a dict from coordinate name
    to its record; [V] is the type of the records.  The dict is kept as the
    list of its items in key order, and [keys_array] is
    [np.array(list(extra_coords.keys()))]. *)
Definition keys_array {V} (items : list (string * V)) : list (option string) :=
  (λ kv, Some kv.1) <$> items.
Arguments keys_array : simpl never.

Definition _find_axis_name {V} (supported_names : list string)
    (world_axis_physical_types : list (option string))
    (extra_coords : option (list (string * V)))
  : result (option string * option string) :=
  axis_name ← _find_name_in_array supported_names world_axis_physical_types;
  if truthy axis_name then Ok (axis_name, Some "wcs")
  else
    match extra_coords with
    | Some (item :: items) =>
        axis_name ← _find_name_in_array supported_names (keys_array (item :: items));
        if truthy axis_name then Ok (axis_name, Some "extra_coords")
        else Ok (axis_name, None)
    | _ => Ok (axis_name, None)
    end.

(** ** Units (astropy.units)

    A unit is represented by what [decompose()] computes from it: a scale
    and the powers of its irreducible bases ("s", "m", "kg", "ct", ...).
    Products and quotients gather the powers of equal bases and drop the
    bases whose power becomes zero, as astropy's composite units do. *)

Record Unit : Type := mk_unit {
  unit_scale : Qc;
  unit_powers : gmap string Qc
}.

Definition nonzero (q : Qc) : option Qc :=
  if decide (q = 0%Qc) then None else Some q.

Definition power_of (o : option Qc) : Qc := default 0%Qc o.

(** The power of base [b] in unit [u] (zero when [b] does not occur). *)
Definition power (u : Unit) (b : string) : Qc := power_of (unit_powers u !! b).

Definition unit_mul (u v : Unit) : Unit :=
  mk_unit (unit_scale u * unit_scale v)%Qc
          (merge (λ p q, nonzero (power_of p + power_of q)%Qc)
                 (unit_powers u) (unit_powers v)).

Definition unit_div (u v : Unit) : Unit :=
  mk_unit (unit_scale u / unit_scale v)%Qc
          (merge (λ p q, nonzero (power_of p - power_of q)%Qc)
                 (unit_powers u) (unit_powers v)).

(** [u.decompose()] *)
Definition decompose (u : Unit) : Unit :=
  mk_unit (unit_scale u) (filter (λ kv, kv.2 ≠ 0%Qc) (unit_powers u)).

(** [u.bases] *)
Definition bases (u : Unit) : gset string := dom (unit_powers u).

(** [b in u.bases] *)
Definition in_bases (b : string) (u : Unit) : bool := bool_decide (b ∈ bases u).

(** [u.s], the second. *)
Definition u_s : Unit := mk_unit 1%Qc {[ "s" := 1%Qc ]}.

(** [u == v]: two units are equal when they decompose alike. *)
Definition unit_eq (u v : Unit) : Prop := decompose u = decompose v.

(** ** Arrays (numpy.ndarray)

    An array is its shape and its elements in row-major order.  The element
    type [F] stands for float64; its division and multiplication, the
    conversion of an astropy quantity to a value in seconds and numpy's
    rendering of a string array are what the module takes from its
    libraries. *)

Record ndarray (F : Type) : Type := mk_ndarray {
  nd_shape : list nat;
  nd_flat : list F
}.
Arguments mk_ndarray {F} nd_shape nd_flat.
Arguments nd_shape {F} _.
Arguments nd_flat {F} _.

(** The value of a quantity: a scalar ([np.isscalar] holds) or an array. *)
Inductive npvalue (F : Type) : Type :=
| NpScalar (x : F)
| NpArray (a : ndarray F).
Arguments NpScalar {F} x.
Arguments NpArray {F} a.

Class Externals (F Quantity : Type) : Type := {
  fdiv : F → F → F;                               (* float64 [/] *)
  fmul : F → F → F;                               (* float64 [*] *)
  to_s_value : Quantity → result (npvalue F);     (* [q.to(u.s).value] *)
  array_str : list string → string                (* [str] of a string array *)
}.

(** Number of elements of an array of shape [s]. *)
Definition nd_size (s : list nat) : nat := foldr Nat.mul 1 s.

(** All the indices of an array of shape [s], in row-major order. *)
Fixpoint indices (s : list nat) : list (list nat) :=
  match s with
  | [] => [[]]
  | n :: s' => i ← seq 0 n; (λ idx, i :: idx) <$> indices s'
  end.

(** Position in the buffer of the element at index [idx]. *)
Fixpoint offset (s idx : list nat) : nat :=
  match s, idx with
  | _ :: s', i :: idx' => i * nd_size s' + offset s' idx'
  | _, _ => 0
  end.

(** numpy's broadcasting rule on two dimensions. *)
Definition broadcast_dim (m n : nat) : option nat :=
  if decide (m = n) then Some m
  else if decide (m = 1) then Some n
  else if decide (n = 1) then Some m
  else None.

(** Broadcasting of two shapes given last dimension first. *)
Fixpoint broadcast_rev (s t : list nat) : option (list nat) :=
  match s, t with
  | [], _ => Some t
  | _, [] => Some s
  | m :: s', n :: t' =>
      d ← broadcast_dim m n; r ← broadcast_rev s' t'; Some (d :: r)
  end.

(** [np.broadcast_shapes(s, t)]: shapes are aligned on their last
    dimension. *)
Definition broadcast_shapes (s t : list nat) : option (list nat) :=
  reverse <$> broadcast_rev (reverse s) (reverse t).

(** The index into an operand of shape [s] that the index [idx] of the
    broadcast result reads: leading dimensions the operand lacks are dropped
    and a dimension of length one is read at 0. *)
Definition broadcast_index (s idx : list nat) : list nat :=
  zip_with (λ n i, if decide (n = 1) then 0 else i) s (drop (length idx - length s) idx).

Section Model.
Context {F Quantity : Type} `{!Inhabited F} `{!Externals F Quantity}.

(** [a[idx]] *)
Definition nd_get (a : ndarray F) (idx : list nat) : F :=
  nth (offset (nd_shape a) idx) (nd_flat a) inhabitant.

(** The element of [a] that position [idx] of a broadcast result reads. *)
Definition nd_getb (a : ndarray F) (idx : list nat) : F :=
  nd_get a (broadcast_index (nd_shape a) idx).

(** An element-wise binary operation with broadcasting.  numpy's message
    goes on with the two shapes. *)
Definition np_binop (f : F → F → F) (a b : ndarray F) : result (ndarray F) :=
  match broadcast_shapes (nd_shape a) (nd_shape b) with
  | Some s => Ok (mk_ndarray s ((λ idx, f (nd_getb a idx) (nd_getb b idx)) <$> indices s))
  | None => Raise (ValueError "operands could not be broadcast together")
  end.

(** A scalar operand behaves as an array without dimensions. *)
Definition as_array (v : npvalue F) : ndarray F :=
  match v with
  | NpScalar x => mk_ndarray [] [x]
  | NpArray a => a
  end.

(** [a / v] and [a * v] *)
Definition np_true_divide (a : ndarray F) (v : npvalue F) : result (ndarray F) :=
  np_binop fdiv a (as_array v).
Definition np_multiply (a : ndarray F) (v : npvalue F) : result (ndarray F) :=
  np_binop fmul a (as_array v).

(** [a[:, np.newaxis]] ([k = 1]) and [a[:, np.newaxis, np.newaxis]]
    ([k = 2]): [k] axes of length one after the first axis. *)
Definition np_newaxis (k : nat) (a : ndarray F) : result (ndarray F) :=
  match nd_shape a with
  | [] => Raise (IndexError "too many indices for array")
  | n :: rest => Ok (mk_ndarray (n :: replicate k 1 ++ rest) (nd_flat a))
  end.

(** ** The cube

    [NDCube] holds what the module reads of the underlying container: data,
    uncertainty and unit (each [None] unless one was given), the WCS and
    the side table.  The WCS is represented by what is read from it: the
    physical types of the world axes and, for a pixel grid of a given shape,
    the world coordinates of a physical type.  Metadata, mask and missing
    axes are handed on untouched by every operation and are not
    represented; ndcube is taken to build the container from the arguments
    it is given, and the side table to come back unchanged from its
    conversion to the constructor's input format. *)
Record NDCube : Type := mk_ndcube {
  data : ndarray F;
  uncertainty : option (ndarray F);
  unit : option Unit;
  world_axis_physical_types : list (option string);
  wcs : list nat → string → result Quantity;
  extra_coords : option (list (string * Quantity))
}.

(** [cube.axis_world_coords(name)]: the world coordinates of the pixels of
    the data, computed from the WCS. *)
Definition axis_world_coords (super : NDCube) (name : string) : result Quantity :=
  wcs super (nd_shape (data super)) name.

Record SpectrogramCube : Type := mk_cube {
  nd : NDCube;
  _longitude_name : option string;  _longitude_loc : option string;
  _latitude_name : option string;   _latitude_loc : option string;
  _spectral_name : option string;   _spectral_loc : option string;
  _time_name : option string;       _time_loc : option string;
  _exposure_time_name : option string; _exposure_time_loc : option string
}.

(** [SpectrogramCube.__init__] (lines 152-170) *)
Definition __init__ (super : NDCube) : result SpectrogramCube :=
  let self_extra_coords := extra_coords super in
  let wapt := world_axis_physical_types super in
  '(lon_name, lon_loc) ← _find_axis_name SUPPORTED_LONGITUDE_NAMES wapt self_extra_coords;
  '(lat_name, lat_loc) ← _find_axis_name SUPPORTED_LATITUDE_NAMES wapt self_extra_coords;
  '(spec_name, spec_loc) ← _find_axis_name SUPPORTED_SPECTRAL_NAMES wapt self_extra_coords;
  '(time_name, time_loc) ← _find_axis_name SUPPORTED_TIME_NAMES wapt self_extra_coords;
  '(exp_name, exp_loc) ← _find_axis_name SUPPORTED_EXPOSURE_NAMES wapt self_extra_coords;
  Ok (mk_cube super lon_name lon_loc lat_name lat_loc spec_name spec_loc
              time_name time_loc exp_name exp_loc).

(** [_get_axis_coord] (lines 285-289); falls off the end, returning
    [None], when the location is neither string.  The properties call it
    with a name that is a non-empty string. *)
Definition _get_axis_coord (self : SpectrogramCube) (axis_name : option string)
    (coord_loc : option string) : result (option Quantity) :=
  let axis_name := default "" axis_name in
  if decide (coord_loc = Some "wcs") then
    q ← axis_world_coords (nd self) axis_name; Ok (Some q)
  else if decide (coord_loc = Some "extra_coords") then
    match extra_coords (nd self) with
    | None => Raise (TypeError "'NoneType' object is not subscriptable")
    | Some items =>
        match assoc_lookup axis_name items with
        | Some q => Ok (Some q)
        | None => Raise (KeyError axis_name)
        end
    end
  else Ok None.

(** The common shape of the five coordinate properties (lines 222-255):
    [label] is the text the message starts with and [names_global] the
    global name the f-string reads. *)
Definition axis_property (self : SpectrogramCube) (label names_global : string)
    (name loc : option string) : result (option Quantity) :=
  if negb (truthy name) then
    names ← load_global names_global;
    Raise (ValueError (label +:+ AXIS_NOT_FOUND_ERROR +:+ array_str names))
  else _get_axis_coord self name loc.

Definition spectral_axis (self : SpectrogramCube) : result (option Quantity) :=
  axis_property self "Spectral" "SUPPORTED_SPECTRAL_NAMES"
                (_spectral_name self) (_spectral_loc self).

Definition time (self : SpectrogramCube) : result (option Quantity) :=
  axis_property self "Time" "SUPPORTED_TIMES_NAMES"
                (_time_name self) (_time_loc self).

Definition exposure_time (self : SpectrogramCube) : result (option Quantity) :=
  axis_property self "Exposure time" "SUPPORTED_EXPOSURE_NAMES"
                (_exposure_time_name self) (_exposure_time_loc self).

Definition lon (self : SpectrogramCube) : result (option Quantity) :=
  axis_property self "Longitude" "SUPPORTED_LONGITUDE_NAMES"
                (_longitude_name self) (_longitude_loc self).

Definition lat (self : SpectrogramCube) : result (option Quantity) :=
  axis_property self "Latitude" "SUPPORTED_LATITUDE_NAME"
                (_latitude_name self) (_latitude_loc self).

(** ** Exposure-time correction (lines 257-283 and 336-401) *)

(** The unit of a cube is [None] unless one was given; [raised] is what
    the use of [None] as a unit raises: [AttributeError] for
    [None.decompose()], [TypeError] for [None / u.s] and [None * u.s]. *)
Definition unit_of (old_unit : option Unit) (raised : exn) : result Unit :=
  match old_unit with
  | Some un => Ok un
  | None => Raise raised
  end.

(** [_calculate_exposure_time_correction]; [force is not True] is
    [negb force] for a boolean [force], and [and] evaluates its right operand
    only when the left one holds. *)
Definition _calculate_exposure_time_correction (old_data_arrays : list (ndarray F))
    (old_unit : option Unit) (exposure_time : npvalue F) (force : bool)
  : result (list (ndarray F) * Unit) :=
  already ←
    (if negb force then
       un ← unit_of old_unit
              (AttributeError "'NoneType' object has no attribute 'decompose'");
       Ok (in_bases "s" (decompose un))
     else Ok false);
  if already : bool then
    Raise (ValueError APPLY_EXPOSURE_TIME_ERROR)
  else
    new_data_arrays ←
      mapM (λ old_data, np_true_divide old_data exposure_time) old_data_arrays;
    un ← unit_of old_unit
           (TypeError "unsupported operand type(s) for /: 'NoneType' and 'IrreducibleUnit'");
    let new_unit := unit_div un u_s in
    Ok (new_data_arrays, new_unit).

(** [_uncalculate_exposure_time_correction] *)
Definition _uncalculate_exposure_time_correction (old_data_arrays : list (ndarray F))
    (old_unit : option Unit) (exposure_time : npvalue F) (force : bool)
  : result (list (ndarray F) * Unit) :=
  already ←
    (if negb force then
       un ← unit_of old_unit
              (TypeError "unsupported operand type(s) for *: 'NoneType' and 'IrreducibleUnit'");
       Ok (in_bases "s" (decompose (unit_mul un u_s)))
     else Ok false);
  if already : bool then
    Raise (ValueError UNDO_EXPOSURE_TIME_ERROR)
  else
    new_data_arrays ←
      mapM (λ old_data, np_multiply old_data exposure_time) old_data_arrays;
    un ← unit_of old_unit
           (TypeError "unsupported operand type(s) for *: 'NoneType' and 'IrreducibleUnit'");
    let new_unit := unit_mul un u_s in
    Ok (new_data_arrays, new_unit).

(** [self.dimensions]: the lengths of the data axes, a one-dimensional
    quantity in pixels; [dimensions_shape] is its own shape. *)
Definition dimensions (self : SpectrogramCube) : list nat := nd_shape (data (nd self)).
Definition dimensions_shape (self : SpectrogramCube) : list nat := [length (dimensions self)].

Definition dimensions_error (self : SpectrogramCube) : exn :=
  ValueError ("SpectrogramCube dimensions must be 2 or 3. Dimensions=" +:+
              pretty (length (dimensions_shape self))).

(** Line 260: [self.exposure_time.to(u.s).value] *)
Definition exposure_time_s (self : SpectrogramCube) : result (npvalue F) :=
  q ← exposure_time self;
  match q with
  | Some q => to_s_value q
  | None => Raise (AttributeError "'NoneType' object has no attribute 'to'")
  end.

(** [l[i]] on a Python list. *)
Definition py_getitem {A} (l : list A) (i : nat) : result A :=
  match l !! i with
  | Some x => Ok x
  | None => Raise (IndexError "list index out of range")
  end.

(** [self.uncertainty.array] *)
Definition uncertainty_array (self : SpectrogramCube) : result (ndarray F) :=
  match uncertainty (nd self) with
  | Some u => Ok u
  | None => Raise (AttributeError "'NoneType' object has no attribute 'array'")
  end.

(** Lines 261-271: the reshaping of the exposure time so that it can be
    broadcast; [np.isscalar] holds of [NpScalar] only. *)
Definition reshape_exposure_time (self : SpectrogramCube) (exposure_time_s : npvalue F)
  : result (npvalue F) :=
  match exposure_time_s with
  | NpScalar _ => Ok exposure_time_s
  | NpArray a =>
      match length (dimensions self) with
      | 1 => Ok (NpArray a)
      | 2 => a ← np_newaxis 1 a; Ok (NpArray a)
      | 3 => a ← np_newaxis 2 a; Ok (NpArray a)
      | _ => Raise (dimensions_error self)
      end
  end.

Definition apply_exposure_time_correction (self : SpectrogramCube) (undo force : bool)
  : result SpectrogramCube :=
  exposure_time_s ← exposure_time_s self;
  exposure_time_s ← reshape_exposure_time self exposure_time_s;
  uncertainty_array ← uncertainty_array self;
  '(new_data_arrays, new_unit) ←
    (if undo then _uncalculate_exposure_time_correction
     else _calculate_exposure_time_correction)
      [data (nd self); uncertainty_array] (unit (nd self)) exposure_time_s force;
  new_data ← py_getitem new_data_arrays 0;
  new_uncertainty ← py_getitem new_data_arrays 1;
  __init__ (mk_ndcube new_data (Some new_uncertainty) (Some new_unit)
                      (world_axis_physical_types (nd self))
                      (wcs (nd self))
                      (extra_coords (nd self))).
End Model.

Arguments NDCube : clear implicits.
Arguments SpectrogramCube : clear implicits.

(** ** Concrete instances

    Exact rational arithmetic for the elements, quantities that are already
    values in seconds, and a plain rendering of string arrays. *)

#[global] Instance Q_inhabited : Inhabited Q := populate 0%Q.

#[global] Instance Q_externals : Externals Q (npvalue Q) := {|
  fdiv := Qdiv;
  fmul := Qmult;
  to_s_value := λ q, Ok q;
  array_str := λ names,
    "[" +:+ String.concat " " ((λ name, "'" +:+ name +:+ "'") <$> names) +:+ "]"
|}.

Definition no_wcs_coord : list nat → string → result (npvalue Q) :=
  λ shape name, Raise (ValueError ("no world axis named " +:+ name)).

Definition counts : Unit := mk_unit 1%Qc {[ "ct" := 1%Qc ]}.

(** A 2 x 3 cube in counts with one exposure time per row in the side
    table. *)
Definition cube_2x3 (uncert : option (ndarray Q)) (un : Unit) : NDCube Q (npvalue Q) :=
  mk_ndcube (mk_ndarray [2; 3] [2; 4; 6; 3; 6; 9]%Q) uncert (Some un)
            [Some "time"; Some "em.wl"] no_wcs_coord
            (Some [("exposure time", NpArray (mk_ndarray [2] [2; 3]%Q))]).

Definition sigma_2x3 : ndarray Q := mk_ndarray [2; 3] [1; 1; 1; 3; 3; 3]%Q.

(** A 4-dimensional cube whose exposure time is [t]. *)
Definition cube_4d (t : npvalue Q) (un : Unit) : NDCube Q (npvalue Q) :=
  mk_ndcube (mk_ndarray [2; 1; 1; 2] [2; 4; 6; 8]%Q)
            (Some (mk_ndarray [2; 1; 1; 2] [1; 1; 2; 2]%Q)) (Some un)
            [Some "time"; Some "em.wl"; None; None] no_wcs_coord
            (Some [("exposure time", t)]).

Definition per_second : Unit := unit_div counts u_s.

Definition exposures : ndarray Q := mk_ndarray [2] [2; 3]%Q.

(** The instance built from either cube: spectral and time axes in the WCS,
    exposure time in the side table, no longitude or latitude. *)
Definition resolved (c : NDCube Q (npvalue Q)) : SpectrogramCube Q (npvalue Q) :=
  mk_cube c None None None None (Some "em.wl") (Some "wcs") (Some "time") (Some "wcs")
          (Some "exposure time") (Some "extra_coords").

(** A single spectrum: one spectral axis, no side table, no uncertainty. *)
Definition spectrum_1d : NDCube Q (npvalue Q) :=
  mk_ndcube (mk_ndarray [3] [1; 2; 3]%Q) None (Some counts) [Some "em.wl"] no_wcs_coord None.

Definition spectrum_1d_self : SpectrogramCube Q (npvalue Q) :=
  mk_cube spectrum_1d None None None None (Some "em.wl") (Some "wcs") None None None None.

(** The instances the statements are tried on. *)
Definition raster : SpectrogramCube Q (npvalue Q) :=
  resolved (cube_2x3 (Some sigma_2x3) counts).
Definition raster_per_second : SpectrogramCube Q (npvalue Q) :=
  resolved (cube_2x3 (Some sigma_2x3) per_second).
Definition raster_bare : SpectrogramCube Q (npvalue Q) :=
  resolved (cube_2x3 None counts).
Definition hypercube : SpectrogramCube Q (npvalue Q) :=
  resolved (cube_4d (NpArray exposures) counts).
Definition hypercube_per_second : SpectrogramCube Q (npvalue Q) :=
  resolved (cube_4d (NpArray exposures) per_second).
Definition hypercube_scalar : SpectrogramCube Q (npvalue Q) :=
  resolved (cube_4d (NpScalar 2%Q) counts).
Definition hypercube_scalar_per_second : SpectrogramCube Q (npvalue Q) :=
  resolved (cube_4d (NpScalar 2%Q) per_second).

(** ** Vocabulary of the statements *)

Section Vocabulary.
Context {F Quantity : Type} `{!Inhabited F} `{!Externals F Quantity}.

(** [self] is an instance: what the constructor builds from the
    container state that [self] holds. *)
Definition constructed (self : SpectrogramCube F Quantity) : Prop := __init__ (nd self) = Ok self.

(** The exposure time that the element at index [idx] of the data meets
    once the exposure time is broadcast: the scalar itself, or the entry
    of the per-exposure array at the position along the first axis. *)
Definition exposure_at (t : npvalue F) (idx : list nat) : F :=
  match t with
  | NpScalar x => x
  | NpArray e => nth (hd 0 idx) (nd_flat e) inhabitant
  end.

(** The exposure time is a scalar, or the data have one, two or three
    axes and the exposure time is one-dimensional with one entry per
    position along the first of them. *)
Definition per_exposure (t : npvalue F) (s : list nat) : Prop :=
  match t with
  | NpScalar _ => True
  | NpArray e => ∃ n rest, s = n :: rest ∧ length rest ≤ 2 ∧ nd_shape e = [n]
  end.

(** The array [a] with each element combined by [f] with the exposure
    time it meets; the shape is that of [a]. *)
Definition rescaled (f : F → F → F) (a : ndarray F) (t : npvalue F) : ndarray F :=
  mk_ndarray (nd_shape a)
             ((λ idx, f (nd_get a idx) (exposure_at t idx)) <$> indices (nd_shape a)).

(** The instance [self] around another container state. *)
Definition with_nd (self : SpectrogramCube F Quantity) (super : NDCube F Quantity)
  : SpectrogramCube F Quantity :=
  mk_cube super
          (_longitude_name self) (_longitude_loc self)
          (_latitude_name self) (_latitude_loc self)
          (_spectral_name self) (_spectral_loc self)
          (_time_name self) (_time_loc self)
          (_exposure_time_name self) (_exposure_time_loc self).

(** The container state of [self] with new data, uncertainty and unit. *)
Definition nd_update (self : SpectrogramCube F Quantity) (d u : ndarray F) (un : Unit)
  : NDCube F Quantity :=
  mk_ndcube d (Some u) (Some un) (world_axis_physical_types (nd self))
            (wcs (nd self)) (extra_coords (nd self)).
End Vocabulary.

(** ** Vocabulary of the resolution *)

(** The supported elements of a name array, in the order of the array. *)
Definition hits (supported_names : list string) (names_array : list (option string))
  : list (option string) :=
  filter (λ x, is_supported supported_names x = true) names_array.

(** No physical type is supported and no key of the side table is. *)
Definition unmatched {V} (supported_names : list string)
    (world_axis_physical_types : list (option string))
    (extra_coords : option (list (string * V))) : Prop :=
  hits supported_names world_axis_physical_types = [] ∧
  ∀ items, extra_coords = Some items → hits supported_names (keys_array items) = [].

(** Several physical types are supported, or none is and several keys of
    the side table are. *)
Definition ambiguous {V} (supported_names : list string)
    (world_axis_physical_types : list (option string))
    (extra_coords : option (list (string * V))) : Prop :=
  2 ≤ length (hits supported_names world_axis_physical_types) ∨
  (hits supported_names world_axis_physical_types = [] ∧
   ∃ items, extra_coords = Some items ∧
            2 ≤ length (hits supported_names (keys_array items))).

(** What a name and its location say of the sources they were resolved
    from: the name is the only supported physical type, or no physical type
    is supported and the name is the only supported key of the side table;
    and without a name nothing is supported in either source. *)
Definition resolves_to {V} (supported_names : list string)
    (world_axis_physical_types : list (option string))
    (extra_coords : option (list (string * V))) (name loc : option string) : Prop :=
  match name with
  | Some s =>
      (loc = Some "wcs" ∧ hits supported_names world_axis_physical_types = [Some s]) ∨
      (loc = Some "extra_coords" ∧
       hits supported_names world_axis_physical_types = [] ∧
       ∃ items, extra_coords = Some items ∧
                hits supported_names (keys_array items) = [Some s])
  | None => loc = None ∧ unmatched supported_names world_axis_physical_types extra_coords
  end.

(** The five alias sets, in the order in which the constructor uses them. *)
Definition alias_sets : list (list string) :=
  [ SUPPORTED_LONGITUDE_NAMES; SUPPORTED_LATITUDE_NAMES; SUPPORTED_SPECTRAL_NAMES;
    SUPPORTED_TIME_NAMES; SUPPORTED_EXPOSURE_NAMES ].

Section VocabularyCoordinates.
Context {F Quantity : Type} `{!Inhabited F} `{!Externals F Quantity}.

(** The result [r] of a coordinate property is read from the source that
    [loc] names: the WCS lookup of the physical type [s], or the value
    stored under the key [s] of the side table. *)
Definition read_from (super : NDCube F Quantity) (s : string) (loc : option string)
    (r : result (option Quantity)) : Prop :=
  (loc = Some "wcs" ∧ Some s ∈ world_axis_physical_types super ∧
   r = (q ← axis_world_coords super s; Ok (Some q))) ∨
  (loc = Some "extra_coords" ∧
   ∃ items q, extra_coords super = Some items ∧ assoc_lookup s items = Some q ∧
              r = Ok (Some q)).

(** The cached names of an instance that are present. *)
Definition cached_names (self : SpectrogramCube F Quantity) : list string :=
  omap id [_longitude_name self; _latitude_name self; _spectral_name self;
           _time_name self; _exposure_time_name self].
End VocabularyCoordinates.

(** ** Further inputs *)

(** A 2 x 1 x 2 cube in counts, one exposure time per position along the
    first axis. *)
Definition cube_3d : NDCube Q (npvalue Q) :=
  mk_ndcube (mk_ndarray [2; 1; 2] [2; 4; 6; 9]%Q)
            (Some (mk_ndarray [2; 1; 2] [1; 1; 3; 3]%Q)) (Some counts)
            [Some "time"; Some "em.wl"; None] no_wcs_coord
            (Some [("exposure time", NpArray exposures)]).

Definition raster_3d : SpectrogramCube Q (npvalue Q) := resolved cube_3d.

(** The 2 x 3 cube with three exposure times, one per column and not one
    per row. *)
Definition raster_mismatch : SpectrogramCube Q (npvalue Q) :=
  resolved
    (mk_ndcube (mk_ndarray [2; 3] [2; 4; 6; 3; 6; 9]%Q) (Some sigma_2x3) (Some counts)
               [Some "time"; Some "em.wl"] no_wcs_coord
               (Some [("exposure time", NpArray (mk_ndarray [3] [2; 3; 4]%Q))])).

(** A container with two world axes of physical type "time". *)
Definition cube_two_times : NDCube Q (npvalue Q) :=
  mk_ndcube (mk_ndarray [2; 3; 2] [1; 2; 3; 4; 5; 6; 7; 8; 9; 10; 11; 12]%Q) None
            (Some counts) [Some "time"; Some "em.wl"; Some "time"] no_wcs_coord None.

(** The 2 x 3 cube with a single exposure time, held in an array of one
    element. *)
Definition raster_single_exposure : SpectrogramCube Q (npvalue Q) :=
  resolved
    (mk_ndcube (mk_ndarray [2; 3] [2; 4; 6; 3; 6; 9]%Q) (Some sigma_2x3) (Some counts)
               [Some "time"; Some "em.wl"] no_wcs_coord
               (Some [("exposure time", NpArray (mk_ndarray [1] [2]%Q))])).

(** The 2 x 3 cube built without a unit. *)
Definition raster_unitless : SpectrogramCube Q (npvalue Q) :=
  resolved
    (mk_ndcube (mk_ndarray [2; 3] [2; 4; 6; 3; 6; 9]%Q) (Some sigma_2x3) None
               [Some "time"; Some "em.wl"] no_wcs_coord
               (Some [("exposure time", NpArray exposures)])).

(** * Lemmas *)

Lemma power_of_nonzero q : power_of (nonzero q) = q.
Proof. unfold nonzero. case_decide; simpl; congruence. Qed.

Lemma power_unit_mul u v b : power (unit_mul u v) b = (power u b + power v b)%Qc.
Proof.
  unfold power, unit_mul; simpl. rewrite lookup_merge.
  destruct (unit_powers u !! b) as [p|] eqn:Hu, (unit_powers v !! b) as [q|] eqn:Hv;
    simpl; rewrite ?power_of_nonzero; reflexivity.
Qed.

Lemma power_unit_div u v b : power (unit_div u v) b = (power u b - power v b)%Qc.
Proof.
  unfold power, unit_div; simpl. rewrite lookup_merge.
  destruct (unit_powers u !! b) as [p|] eqn:Hu, (unit_powers v !! b) as [q|] eqn:Hv;
    simpl; rewrite ?power_of_nonzero; reflexivity.
Qed.

Lemma power_u_s b : power u_s b = if decide (b = "s") then 1%Qc else 0%Qc.
Proof.
  unfold power, u_s; simpl. case_decide as Hb.
  - subst. by rewrite lookup_singleton_eq.
  - by rewrite lookup_singleton_ne.
Qed.

Lemma lookup_decompose u b :
  unit_powers (decompose u) !! b = nonzero (power u b).
Proof.
  unfold decompose, power; simpl.
  destruct (unit_powers u !! b) as [p|] eqn:Hu; simpl.
  - unfold nonzero. case_decide as Hp.
    + apply map_lookup_filter_None. right. intros x Hx. simpl. congruence.
    + apply map_lookup_filter_Some. split; [done | simpl; done].
  - unfold nonzero. case_decide; [|done].
    apply map_lookup_filter_None. by left.
Qed.

Lemma in_bases_decompose b u :
  in_bases b (decompose u) = true ↔ power u b ≠ 0%Qc.
Proof.
  unfold in_bases, bases. rewrite bool_decide_eq_true, elem_of_dom, lookup_decompose.
  unfold nonzero. case_decide as Hp; split.
  - intros [x Hx]. done.
  - done.
  - done.
  - eauto.
Qed.

Lemma unit_eq_iff u v :
  unit_eq u v ↔ unit_scale u = unit_scale v ∧ ∀ b, power u b = power v b.
Proof.
  unfold unit_eq. split.
  - intros H. split.
    + by injection H.
    + intros b. rewrite <- (power_of_nonzero (power u b)), <- (power_of_nonzero (power v b)).
      rewrite <- !lookup_decompose. by rewrite H.
  - intros [Hs Hp]. unfold decompose at 1 2. rewrite Hs. f_equal.
    apply map_eq. intros b.
    pose proof (lookup_decompose u b) as Hu. pose proof (lookup_decompose v b) as Hv.
    simpl in Hu, Hv. rewrite Hu, Hv, Hp. done.
Qed.

(** ** Boolean-mask selection and name search *)

Section Resolution.
Implicit Types (sup : list string) (A : list (option string)) (k i : nat).

Lemma np_sum_select sup A k :
  np_sum (np_isin A sup) = length (np_select (seq k (length A)) (np_isin A sup)).
Proof.
  unfold np_sum, np_isin. revert k. induction A as [|x A IH]; intros k; [done|].
  simpl. rewrite filter_cons. destruct (is_supported sup x); simpl.
  - f_equal. apply IH.
  - apply IH.
Qed.

Lemma np_select_none sup A k :
  (∀ x, x ∈ A → is_supported sup x = false) →
  np_select (seq k (length A)) (np_isin A sup) = [].
Proof.
  unfold np_isin. revert k. induction A as [|x A IH]; intros k HA; [done|].
  simpl. rewrite (HA x) by set_solver. apply IH. intros y Hy. apply HA. set_solver.
Qed.

Lemma np_select_app sup A1 A2 k :
  np_select (seq k (length (A1 ++ A2))) (np_isin (A1 ++ A2) sup) =
  np_select (seq k (length A1)) (np_isin A1 sup) ++
  np_select (seq (k + length A1) (length A2)) (np_isin A2 sup).
Proof.
  unfold np_isin. revert k. induction A1 as [|x A1 IH]; intros k; simpl.
  - by rewrite Nat.add_0_r.
  - rewrite IH. replace (k + S (length A1)) with (S k + length A1) by lia.
    by destruct (is_supported sup x).
Qed.

Lemma np_select_elem sup A k i :
  i ∈ np_select (seq k (length A)) (np_isin A sup) →
  k ≤ i ∧ ∃ x, A !! (i - k) = Some x ∧ is_supported sup x = true.
Proof.
  unfold np_isin. revert k. induction A as [|x A IH]; intros k; simpl.
  - intros H. by apply elem_of_nil in H.
  - destruct (is_supported sup x) eqn:Hx.
    + intros [->|H]%elem_of_cons.
      * split; [lia|]. exists x. by rewrite Nat.sub_diag.
      * apply IH in H as [Hk (y & Hy & Hs)]. split; [lia|]. exists y. split; [|done].
        replace (i - k) with (S (i - S k)) by lia. done.
    + intros H. apply IH in H as [Hk (y & Hy & Hs)]. split; [lia|]. exists y. split; [|done].
      replace (i - k) with (S (i - S k)) by lia. done.
Qed.

(** No element is supported: the search returns [None]. *)
Lemma find_name_none sup A :
  (∀ x, x ∈ A → is_supported sup x = false) →
  _find_name_in_array sup A = Ok None.
Proof.
  intros HA. unfold _find_name_in_array.
  rewrite (np_sum_select sup A 0), np_select_none by done. done.
Qed.

(** Exactly one element is supported: the search returns it. *)
Lemma find_name_unique sup A1 x A2 :
  is_supported sup x = true →
  (∀ y, y ∈ A1 → is_supported sup y = false) →
  (∀ y, y ∈ A2 → is_supported sup y = false) →
  _find_name_in_array sup (A1 ++ x :: A2) = Ok x.
Proof.
  intros Hx H1 H2. unfold _find_name_in_array.
  rewrite (np_sum_select sup _ 0), np_select_app, np_select_none by done.
  simpl. unfold np_isin at 1. simpl. rewrite Hx.
  fold (np_isin A2 sup). rewrite np_select_none by done. simpl.
  by rewrite list_lookup_middle.
Qed.

(** Two elements are supported: the conversion of the index array to an
    integer fails. *)
Lemma find_name_two sup A1 x A2 y A3 :
  is_supported sup x = true → is_supported sup y = true →
  _find_name_in_array sup (A1 ++ x :: A2 ++ y :: A3) =
    Raise (TypeError "only size-1 arrays can be converted to Python scalars").
Proof.
  intros Hx Hy. unfold _find_name_in_array.
  rewrite (np_sum_select sup _ 0), np_select_app.
  change (x :: A2 ++ y :: A3) with ([x] ++ A2 ++ y :: A3).
  rewrite np_select_app, np_select_app.
  simpl length at 2 3.
  unfold np_isin at 2. simpl. rewrite Hx.
  unfold np_isin at 3. simpl. rewrite Hy.
  rewrite !length_app. simpl.
  destruct (np_select _ (np_isin A1 sup)) as [|a [|b l]]; simpl.
  - destruct (np_select _ (np_isin A2 sup)); done.
  - done.
  - done.
Qed.

(** What the search can produce at all. *)
Lemma find_name_cases sup A :
  (_find_name_in_array sup A = Ok None ∧ ∀ x, x ∈ A → is_supported sup x = false) ∨
  (∃ x, _find_name_in_array sup A = Ok x ∧ x ∈ A ∧ is_supported sup x = true) ∨
  _find_name_in_array sup A =
    Raise (TypeError "only size-1 arrays can be converted to Python scalars").
Proof.
  unfold _find_name_in_array. rewrite (np_sum_select sup A 0).
  destruct (np_select _ _) as [|i [|j l]] eqn:Hsel; simpl.
  - left. split; [done|]. intros x Hx. destruct (is_supported sup x) eqn:Hs; [|done].
    apply list_elem_of_split in Hx as (A1 & A2 & ->).
    rewrite np_select_app in Hsel. apply app_eq_nil in Hsel as [_ Hsel].
    unfold np_isin in Hsel. simpl in Hsel. by rewrite Hs in Hsel.
  - right. left.
    assert (i ∈ np_select (seq 0 (length A)) (np_isin A sup)) as Hi
      by (rewrite Hsel; set_solver).
    apply np_select_elem in Hi as [_ (x & Hx & Hs)]. rewrite Nat.sub_0_r in Hx.
    exists x. rewrite Hx. split; [done|]. split; [|done]. by eapply list_elem_of_lookup_2.
  - right. right. done.
Qed.
End Resolution.

(** ** Axis-name resolution *)

Section FindAxisName.
Context {V : Type}.
Implicit Types (sup : list string) (W : list (option string))
               (E : option (list (string * V))) (items I : list (string * V)).

(** A single supported physical type, not the empty string, is the
    answer, whatever the side table holds. *)
Lemma find_axis_name_wcs sup W1 s W2 E :
  s ∈ sup → s ≠ "" →
  (∀ y, y ∈ W1 → is_supported sup y = false) →
  (∀ y, y ∈ W2 → is_supported sup y = false) →
  _find_axis_name sup (W1 ++ Some s :: W2) E = Ok (Some s, Some "wcs").
Proof.
  intros Hs Hne H1 H2. unfold _find_axis_name.
  rewrite find_name_unique; [|by apply bool_decide_eq_true|done..].
  simpl. by apply String.eqb_neq in Hne as ->.
Qed.

(** No supported physical type and a single supported key, not the empty
    string: the key is the answer. *)
Lemma find_axis_name_extra_coords sup W I1 k v I2 :
  (∀ y, y ∈ W → is_supported sup y = false) →
  k ∈ sup → k ≠ "" →
  (∀ kv, kv ∈ I1 → kv.1 ∉ sup) →
  (∀ kv, kv ∈ I2 → kv.1 ∉ sup) →
  _find_axis_name sup W (Some (I1 ++ (k, v) :: I2)) = Ok (Some k, Some "extra_coords").
Proof.
  intros HW Hk Hne H1 H2. unfold _find_axis_name.
  rewrite find_name_none by done. simpl.
  assert (Hkeys : ∀ I, (∀ kv, kv ∈ I → kv.1 ∉ sup) →
            ∀ y, y ∈ keys_array I → is_supported sup y = false).
  { intros I HI y (kv & -> & Hkv)%list_elem_of_fmap. simpl.
    apply bool_decide_eq_false. by apply HI. }
  destruct (I1 ++ (k, v) :: I2) as [|item items] eqn:HI.
  { by destruct I1. }
  rewrite <- HI. unfold keys_array at 1. rewrite fmap_app, fmap_cons. simpl.
  rewrite find_name_unique; [|by apply bool_decide_eq_true|by apply Hkeys..].
  simpl. by apply String.eqb_neq in Hne as ->.
Qed.

(** Nothing supported anywhere, or no side table to fall back on: the
    answer is [(None, None)]. *)
Lemma find_axis_name_unresolved sup W E :
  (∀ y, y ∈ W → is_supported sup y = false) →
  (∀ items kv, E = Some items → kv ∈ items → kv.1 ∉ sup) →
  _find_axis_name sup W E = Ok (None, None).
Proof.
  intros HW HE. unfold _find_axis_name. rewrite find_name_none by done. simpl.
  destruct E as [[|item items]|]; [done| |done].
  rewrite find_name_none; [done|].
  intros y (kv & -> & Hkv)%list_elem_of_fmap. simpl.
  apply bool_decide_eq_false. by eapply HE.
Qed.

(** Every outcome of the resolution. *)
Lemma find_axis_name_outcomes sup W E :
  match _find_axis_name sup W E with
  | Ok (name, loc) =>
      (is_Some loc ↔ truthy name = true) ∧
      (∀ s, name = Some s → s ∈ sup) ∧
      (loc = None ∨ loc = Some "wcs" ∨ loc = Some "extra_coords")
  | Raise e => e = TypeError "only size-1 arrays can be converted to Python scalars"
  end.
Proof.
  assert (Hin : ∀ x s, is_supported sup x = true → x = Some s → s ∈ sup).
  { intros x s Hx ->. simpl in Hx. by apply bool_decide_eq_true in Hx. }
  assert (Hleaf : ∀ (x : option string) (loc : option string),
            (∀ s, x = Some s → s ∈ sup) →
            (truthy x = true ∧ (loc = Some "wcs" ∨ loc = Some "extra_coords")) ∨
            (truthy x = false ∧ loc = None) →
            (is_Some loc ↔ truthy x = true) ∧
            (∀ s, x = Some s → s ∈ sup) ∧
            (loc = None ∨ loc = Some "wcs" ∨ loc = Some "extra_coords")).
  { intros x loc Hx [[Ht Hl]|[Ht ->]].
    - split; [|split; [done|tauto]]. split; [done|]. intros _. destruct Hl as [-> | ->]; eauto.
    - split; [|split; [done|tauto]]. rewrite Ht. split; [intros [? ?]|]; congruence. }
  assert (Hnone : (is_Some (@None string) ↔ false = true) ∧
                  (∀ s, None = Some s → s ∈ sup) ∧
                  (@None string = None ∨ @None string = Some "wcs" ∨
                   @None string = Some "extra_coords")).
  { apply (Hleaf None None); [done | by right]. }
  unfold _find_axis_name.
  destruct (find_name_cases sup W) as [[-> _]|[(x & -> & _ & Hx)| ->]]; simpl; [| |done].
  - destruct E as [[|item items]|]; simpl; [done| |done].
    destruct (find_name_cases sup (keys_array (item :: items)))
      as [[-> _]|[(y & -> & _ & Hy)| ->]]; simpl; [done| |done].
    destruct (truthy y) eqn:Ht; simpl; apply Hleaf; eauto.
  - destruct (truthy x) eqn:Ht; simpl; [apply Hleaf; eauto|].
    destruct E as [[|item items]|]; simpl; [apply Hleaf; eauto| |apply Hleaf; eauto].
    destruct (find_name_cases sup (keys_array (item :: items)))
      as [[-> _]|[(y & -> & _ & Hy)| ->]]; simpl; [done| |done].
    destruct (truthy y) eqn:Hty; simpl; apply Hleaf; eauto.
Qed.

(** When the empty string is not a supported name, a returned source is
    present exactly when the name is. *)
Lemma find_axis_name_present sup W E name loc :
  "" ∉ sup →
  _find_axis_name sup W E = Ok (name, loc) →
  (is_Some loc ↔ is_Some name).
Proof.
  intros Hempty Hfind. pose proof (find_axis_name_outcomes sup W E) as H.
  rewrite Hfind in H. destruct H as (Hloc & Hname & _). rewrite Hloc.
  destruct name as [s|]; simpl.
  - rewrite negb_true_iff, String.eqb_neq. split; [by eauto|].
    intros _ ->. apply Hempty. by apply Hname.
  - split; [done|]. by intros [? ?].
Qed.
End FindAxisName.

(** None of the five alias sets of the module holds the empty string. *)
Lemma supported_names_not_empty :
  ("" ∉ SUPPORTED_LONGITUDE_NAMES) ∧ ("" ∉ SUPPORTED_LATITUDE_NAMES) ∧
  ("" ∉ SUPPORTED_SPECTRAL_NAMES) ∧ ("" ∉ SUPPORTED_TIME_NAMES) ∧
  ("" ∉ SUPPORTED_EXPOSURE_NAMES).
Proof. repeat split; apply (bool_decide_unpack _); vm_compute; exact I. Qed.

(** ** Indices, offsets and broadcasting *)

Section Arrays.
Context {F : Type} `{!Inhabited F}.
Implicit Types (s idx rest : list nat) (a e : ndarray F).

Lemma length_indices s : length (indices s) = nd_size s.
Proof.
  induction s as [|n s IH]; [done|]. simpl.
  generalize 0 at 1. induction n as [|n IHn]; intros k; [done|].
  simpl. rewrite length_app, length_fmap, IH, IHn. done.
Qed.

Lemma elem_of_indices s idx :
  idx ∈ indices s ↔ Forall2 (λ i n, i < n) idx s.
Proof.
  revert idx. induction s as [|n s IH]; intros idx; simpl.
  - rewrite list_elem_of_singleton. split; [intros ->; constructor|by inversion 1].
  - rewrite list_elem_of_bind. split.
    + intros (i & (idx' & -> & Hidx)%list_elem_of_fmap & Hi%elem_of_seq).
      constructor; [lia|]. by apply IH.
    + inversion 1 as [|i ? idx' ? Hi Hidx]; subst. exists i. split.
      * apply list_elem_of_fmap. exists idx'. split; [done|]. by apply IH.
      * apply elem_of_seq. lia.
Qed.

Lemma length_elem_of_indices s idx : idx ∈ indices s → length idx = length s.
Proof. rewrite elem_of_indices. apply Forall2_length. Qed.

Lemma offset_lt s idx : idx ∈ indices s → offset s idx < nd_size s.
Proof.
  rewrite elem_of_indices. induction 1 as [|i n idx s Hi _ IH]; simpl; [lia|]. nia.
Qed.

(** Blocks of equal length laid end to end. *)
Lemma lookup_bind_seq {B} (f : nat → list B) m k n i j :
  (∀ x, length (f x) = m) → i < n → j < m →
  (seq k n ≫= f) !! (i * m + j) = f (k + i) !! j.
Proof.
  intros Hf. revert k i. induction n as [|n IH]; intros k i Hi Hj; [lia|].
  simpl. destruct i as [|i].
  - rewrite lookup_app_l by (rewrite Hf; lia). by rewrite Nat.add_0_r.
  - rewrite lookup_app_r by (rewrite Hf; simpl; lia). rewrite Hf.
    replace (S i * m + j - m) with (i * m + j) by (simpl; lia).
    rewrite IH by lia. f_equal. f_equal. lia.
Qed.

Lemma indices_lookup_offset s idx :
  idx ∈ indices s → indices s !! offset s idx = Some idx.
Proof.
  rewrite elem_of_indices. induction 1 as [|i n idx s Hi Hidx IH]; [done|].
  simpl. rewrite (lookup_bind_seq _ (nd_size s)); [| |done|].
  - simpl. rewrite list_lookup_fmap, IH. done.
  - intros x. by rewrite length_fmap, length_indices.
  - apply offset_lt. by apply elem_of_indices.
Qed.

(** Reading back an array that was built index by index. *)
Lemma nd_get_fmap s (g : list nat → F) idx :
  idx ∈ indices s → nd_get (mk_ndarray s (g <$> indices s)) idx = g idx.
Proof.
  intros Hidx. unfold nd_get. simpl. rewrite nth_lookup, list_lookup_fmap.
  by rewrite indices_lookup_offset.
Qed.

Lemma broadcast_index_self s idx : idx ∈ indices s → broadcast_index s idx = idx.
Proof.
  intros Hidx. unfold broadcast_index.
  rewrite (length_elem_of_indices s idx), Nat.sub_diag, drop_0 by done.
  apply elem_of_indices in Hidx. induction Hidx as [|i n idx s Hi _ IH]; [done|].
  simpl. rewrite IH. case_decide; [|done]. f_equal. lia.
Qed.

Lemma nd_getb_self a idx : idx ∈ indices (nd_shape a) → nd_getb a idx = nd_get a idx.
Proof. intros Hidx. unfold nd_getb. by rewrite broadcast_index_self. Qed.

(** A scalar operand is read whole at every index. *)
Lemma nd_getb_scalar (x : F) idx : nd_getb (mk_ndarray [] [x]) idx = x.
Proof. done. Qed.

Lemma nd_size_ones k : nd_size (replicate k 1) = 1.
Proof. induction k as [|k IH]; [done|]. simpl. rewrite IH. done. Qed.

Lemma offset_ones k idx :
  offset (replicate k 1) (zip_with (λ n i, if decide (n = 1) then 0 else i)
                                   (replicate k 1) idx) = 0.
Proof.
  revert idx. induction k as [|k IH]; intros [|i idx]; simpl; by rewrite ?IH.
Qed.

(** An exposure array with [k] axes of length one after its only axis is
    read at the position along the first axis. *)
Lemma nd_getb_per_exposure (fl : list F) n rest i idx :
  (i :: idx) ∈ indices (n :: rest) →
  nd_getb (mk_ndarray (n :: replicate (length rest) 1) fl) (i :: idx) =
  nth i fl inhabitant.
Proof.
  intros Hidx. pose proof (length_elem_of_indices _ _ Hidx) as Hlen.
  apply elem_of_indices in Hidx. inversion Hidx as [|? ? ? ? Hi _]; subst.
  unfold nd_getb, nd_get, broadcast_index. cbn [nd_shape nd_flat].
  simpl in Hlen. rewrite !length_cons, length_replicate.
  replace (S (length idx) - S (length rest)) with 0 by lia.
  rewrite drop_0. cbn [zip_with offset].
  rewrite offset_ones, nd_size_ones.
  case_decide; f_equal; lia.
Qed.

Lemma broadcast_dim_one m : broadcast_dim m 1 = Some m.
Proof. unfold broadcast_dim. repeat case_decide; congruence. Qed.

Lemma broadcast_dim_same m : broadcast_dim m m = Some m.
Proof. unfold broadcast_dim. by case_decide. Qed.

Lemma broadcast_rev_nil s : broadcast_rev s [] = Some s.
Proof. by destruct s. Qed.

Lemma broadcast_rev_ones s n :
  broadcast_rev (s ++ [n]) (replicate (length s) 1 ++ [n]) = Some (s ++ [n]).
Proof.
  induction s as [|m s IH]; simpl.
  - by rewrite broadcast_dim_same.
  - rewrite broadcast_dim_one. simpl. rewrite IH. done.
Qed.

(** A scalar broadcasts against every shape. *)
Lemma broadcast_shapes_scalar s : broadcast_shapes s [] = Some s.
Proof.
  unfold broadcast_shapes. rewrite reverse_nil, broadcast_rev_nil. simpl.
  by rewrite reverse_involutive.
Qed.

(** One entry per position along the first axis, then axes of length
    one: the result has the shape of the data. *)
Lemma broadcast_shapes_per_exposure n rest :
  broadcast_shapes (n :: rest) (n :: replicate (length rest) 1) = Some (n :: rest).
Proof.
  unfold broadcast_shapes. rewrite !reverse_cons, reverse_replicate.
  rewrite <- (length_reverse rest), broadcast_rev_ones. simpl.
  by rewrite <- reverse_cons, reverse_involutive.
Qed.
End Arrays.

(** ** The correction *)

(** Case analysis on the five resolutions the constructor runs, in the
    order in which it runs them. *)
Ltac destruct_resolution names :=
  destruct (_find_axis_name names _ _) as [[? ?]|]; simpl in *; [|done].
Ltac destruct_resolutions :=
  destruct_resolution SUPPORTED_LONGITUDE_NAMES;
  destruct_resolution SUPPORTED_LATITUDE_NAMES;
  destruct_resolution SUPPORTED_SPECTRAL_NAMES;
  destruct_resolution SUPPORTED_TIME_NAMES;
  destruct_resolution SUPPORTED_EXPOSURE_NAMES.

Section Correction.
Context {F Quantity : Type} `{!Inhabited F} `{!Externals F Quantity}.
Implicit Types (self : SpectrogramCube F Quantity) (t : npvalue F)
               (a u e : ndarray F) (un : Unit) (undo force : bool).

Lemma rescaled_shape f a t : nd_shape (rescaled f a t) = nd_shape a.
Proof. done. Qed.

Lemma rescaled_get f a t idx :
  idx ∈ indices (nd_shape a) →
  nd_get (rescaled f a t) idx = f (nd_get a idx) (exposure_at t idx).
Proof. intros Hidx. unfold rescaled. by rewrite nd_get_fmap. Qed.

(** The constructor reads the physical types and the side table only. *)
Lemma init_with_nd self super :
  constructed self →
  world_axis_physical_types super = world_axis_physical_types (nd self) →
  extra_coords super = extra_coords (nd self) →
  __init__ super = Ok (with_nd self super).
Proof.
  unfold constructed, __init__. intros Hself -> ->.
  destruct_resolutions. by injection Hself as <-.
Qed.

Lemma init_nd super self : __init__ super = Ok self → nd self = super.
Proof.
  unfold __init__. intros Hself.
  destruct_resolutions. by injection Hself as <-.
Qed.

Lemma init_constructed super self : __init__ super = Ok self → constructed self.
Proof. intros H. unfold constructed. by rewrite (init_nd _ _ H). Qed.

(** The invariant of the cached locations: for each of the five
    quantities of an instance, the source is present exactly when the name
    is. *)
Lemma constructed_source_iff_name self :
  constructed self →
  (is_Some (_longitude_loc self) ↔ is_Some (_longitude_name self)) ∧
  (is_Some (_latitude_loc self) ↔ is_Some (_latitude_name self)) ∧
  (is_Some (_spectral_loc self) ↔ is_Some (_spectral_name self)) ∧
  (is_Some (_time_loc self) ↔ is_Some (_time_name self)) ∧
  (is_Some (_exposure_time_loc self) ↔ is_Some (_exposure_time_name self)).
Proof.
  destruct supported_names_not_empty as (Hlon & Hlat & Hspec & Htime & Hexp).
  unfold constructed, __init__. intros Hself.
  destruct (_find_axis_name SUPPORTED_LONGITUDE_NAMES _ _) as [[? ?]|] eqn:E1;
    simpl in Hself; [|done].
  destruct (_find_axis_name SUPPORTED_LATITUDE_NAMES _ _) as [[? ?]|] eqn:E2;
    simpl in Hself; [|done].
  destruct (_find_axis_name SUPPORTED_SPECTRAL_NAMES _ _) as [[? ?]|] eqn:E3;
    simpl in Hself; [|done].
  destruct (_find_axis_name SUPPORTED_TIME_NAMES _ _) as [[? ?]|] eqn:E4;
    simpl in Hself; [|done].
  destruct (_find_axis_name SUPPORTED_EXPOSURE_NAMES _ _) as [[? ?]|] eqn:E5;
    simpl in Hself; [|done].
  injection Hself as <-. simpl.
  split; [exact (find_axis_name_present _ _ _ _ _ Hlon E1)|].
  split; [exact (find_axis_name_present _ _ _ _ _ Hlat E2)|].
  split; [exact (find_axis_name_present _ _ _ _ _ Hspec E3)|].
  split; [exact (find_axis_name_present _ _ _ _ _ Htime E4)|].
  exact (find_axis_name_present _ _ _ _ _ Hexp E5).
Qed.

Lemma constructed_with_nd self super :
  constructed self →
  world_axis_physical_types super = world_axis_physical_types (nd self) →
  extra_coords super = extra_coords (nd self) →
  constructed (with_nd self super).
Proof. intros. unfold constructed. simpl. by apply init_with_nd. Qed.

(** The exposure time is looked up by the cached name in the side table,
    or in the WCS over the pixel grid of the data; the correction changes
    neither the side table nor the WCS, so data of the same shape give the
    same exposure time. *)
Lemma exposure_time_s_nd_update self d u un :
  nd_shape d = nd_shape (data (nd self)) →
  exposure_time_s (with_nd self (nd_update self d u un)) = exposure_time_s self.
Proof.
  intros Hd. unfold exposure_time_s, exposure_time, axis_property, _get_axis_coord,
    axis_world_coords. simpl. by rewrite Hd.
Qed.

(** The reshaped exposure time, when it is a scalar or one value per
    exposure of data with at most three axes. *)
Lemma reshape_per_exposure self t :
  per_exposure t (nd_shape (data (nd self))) →
  ∃ t', reshape_exposure_time self t = Ok t' ∧
        ∀ f a, nd_shape a = nd_shape (data (nd self)) →
               np_binop f a (as_array t') = Ok (rescaled f a t).
Proof.
  destruct t as [x|e]; simpl.
  - intros _. eexists. split; [done|]. intros f a Ha. unfold np_binop. simpl.
    rewrite broadcast_shapes_scalar. unfold rescaled. do 2 f_equal.
    apply list_fmap_ext. intros i idx Hidx%list_elem_of_lookup_2.
    by rewrite nd_getb_self, nd_getb_scalar.
  - intros (n & rest & Hs & Hrest & He).
    exists (NpArray (mk_ndarray (n :: replicate (length rest) 1) (nd_flat e))). split.
    + unfold dimensions, np_newaxis. rewrite Hs, He. destruct e as [se fe]. simpl in *. subst se.
      destruct rest as [|? [|? [|? ?]]]; simpl in *; try done. lia.
    + intros f a Ha. unfold np_binop. simpl. rewrite Ha, Hs.
      rewrite broadcast_shapes_per_exposure. unfold rescaled. rewrite Ha, Hs.
      do 2 f_equal. apply list_fmap_ext. intros i idx Hidx%list_elem_of_lookup_2.
      rewrite nd_getb_self by (by rewrite Ha, Hs).
      destruct idx as [|j idx]; [by apply length_elem_of_indices in Hidx|].
      by rewrite (nd_getb_per_exposure _ n rest).
Qed.

(** What the correction does to an instance that carries an uncertainty
    shaped like its data and whose exposure time is a scalar or one
    value per exposure. *)
Lemma apply_per_exposure self t u un undo force :
  constructed self →
  exposure_time_s self = Ok t →
  per_exposure t (nd_shape (data (nd self))) →
  uncertainty (nd self) = Some u →
  nd_shape u = nd_shape (data (nd self)) →
  unit (nd self) = Some un →
  apply_exposure_time_correction self undo force =
    if negb force &&
       in_bases "s" (decompose (if undo then unit_mul un u_s else un))
    then Raise (ValueError (if undo then UNDO_EXPOSURE_TIME_ERROR
                            else APPLY_EXPOSURE_TIME_ERROR))
    else Ok (with_nd self
               (nd_update self
                  (rescaled (if undo then fmul else fdiv) (data (nd self)) t)
                  (rescaled (if undo then fmul else fdiv) u t)
                  (if undo then unit_mul un u_s else unit_div un u_s))).
Proof.
  intros Hself Ht Hper Hu Hshape Hun. unfold apply_exposure_time_correction.
  rewrite Ht. simpl.
  destruct (reshape_per_exposure self t Hper) as (t' & -> & Hop). simpl.
  unfold uncertainty_array. rewrite Hu, Hun. simpl.
  destruct undo, force; unfold _calculate_exposure_time_correction,
    _uncalculate_exposure_time_correction; simpl;
    try destruct (in_bases _ _); try done; simpl;
    unfold np_true_divide, np_multiply; rewrite !Hop by done; simpl;
    by apply init_with_nd.
Qed.
End Correction.

(** * The claims *)

Section Claims.
Context {F Quantity : Type} `{!Inhabited F} `{!Externals F Quantity}.
Implicit Types (self : SpectrogramCube F Quantity) (t : npvalue F)
               (a u e : ndarray F) (un : Unit) (undo force : bool).

Lemma in_bases_decompose_false b un :
  in_bases b (decompose un) = false ↔ power un b = 0%Qc.
Proof.
  rewrite <- not_true_iff_false, in_bases_decompose.
  destruct (decide (power un b = 0%Qc)); naive_solver.
Qed.

(** C1 (amended).  For every instance with a unit that carries an
    uncertainty array shaped like its data and whose resolved exposure time,
    in seconds, is a scalar or holds one value per position along the first
    of one, two or three data axes: without [force] the correction raises
    the apply-exposure-time error exactly when seconds are among the bases
    of the decomposed unit; and when they are not, or with [force], it
    returns an instance whose data and uncertainty are the originals divided
    element by element by the broadcast exposure time and whose unit is the
    old unit divided by seconds. *)
Theorem apply_correction_guard_and_division self t u un force :
  constructed self →
  exposure_time_s self = Ok t →
  per_exposure t (nd_shape (data (nd self))) →
  uncertainty (nd self) = Some u →
  nd_shape u = nd_shape (data (nd self)) →
  unit (nd self) = Some un →
  (apply_exposure_time_correction self false false =
     Raise (ValueError APPLY_EXPOSURE_TIME_ERROR) ↔
   in_bases "s" (decompose un) = true) ∧
  (force = true ∨ in_bases "s" (decompose un) = false →
   ∃ c, apply_exposure_time_correction self false force = Ok c ∧
        data (nd c) = rescaled fdiv (data (nd self)) t ∧
        uncertainty (nd c) = Some (rescaled fdiv u t) ∧
        unit (nd c) = Some (unit_div un u_s)).
Proof.
  intros Hself Ht Hper Hu Hshape Hun. split.
  - rewrite (apply_per_exposure self t u un false false) by done. simpl.
    destruct (in_bases _ _); split; done.
  - intros Hguard. rewrite (apply_per_exposure self t u un false force) by done.
    assert (negb force && in_bases "s" (decompose un) = false) as ->.
    { destruct Hguard as [-> | ->]; [done | by rewrite andb_false_r]. }
    eexists. split; [done|]. done.
Qed.

(** C2 (amended).  For the same instances: without [force] undoing the
    correction raises the undo-exposure-time error exactly when seconds are
    among the bases of the decomposition of unit times seconds, that is
    when the power of seconds in the unit is not -1; otherwise, or with
    [force], it returns an instance whose data and uncertainty are the
    originals multiplied element by element by the broadcast exposure time
    and whose unit is the old unit times seconds. *)
Theorem undo_correction_guard_and_product self t u un force :
  constructed self →
  exposure_time_s self = Ok t →
  per_exposure t (nd_shape (data (nd self))) →
  uncertainty (nd self) = Some u →
  nd_shape u = nd_shape (data (nd self)) →
  unit (nd self) = Some un →
  (apply_exposure_time_correction self true false =
     Raise (ValueError UNDO_EXPOSURE_TIME_ERROR) ↔
   in_bases "s" (decompose (unit_mul un u_s)) = true) ∧
  (in_bases "s" (decompose (unit_mul un u_s)) = true ↔ power un "s" ≠ (-1)%Qc) ∧
  (force = true ∨ in_bases "s" (decompose (unit_mul un u_s)) = false →
   ∃ c, apply_exposure_time_correction self true force = Ok c ∧
        data (nd c) = rescaled fmul (data (nd self)) t ∧
        uncertainty (nd c) = Some (rescaled fmul u t) ∧
        unit (nd c) = Some (unit_mul un u_s)).
Proof.
  intros Hself Ht Hper Hu Hshape Hun. split; [|split].
  - rewrite (apply_per_exposure self t u un true false) by done. simpl.
    destruct (in_bases _ _); split; done.
  - rewrite in_bases_decompose, power_unit_mul, power_u_s. simpl.
    set (p := power un "s"). split; intros H Hp; apply H.
    + rewrite Hp. ring.
    + assert (p = p + 1 - 1)%Qc as -> by ring. rewrite Hp. ring.
  - intros Hguard. rewrite (apply_per_exposure self t u un true force) by done.
    assert (negb force && in_bases "s" (decompose (unit_mul un u_s)) = false) as ->.
    { destruct Hguard as [-> | ->]; [done | by rewrite andb_false_r]. }
    eexists. split; [done|]. done.
Qed.

Lemma unit_round_trip un : unit_eq (unit_mul (unit_div un u_s) u_s) un.
Proof.
  apply unit_eq_iff. split.
  - simpl. field. done.
  - intros b. rewrite power_unit_mul, power_unit_div. ring.
Qed.

(** C3 (amended).  For every instance with a unit that carries an
    uncertainty array shaped like its data, whose resolved exposure time is
    a scalar or one value per position along the first of one, two or three
    data axes, and whose decomposed unit has no seconds among its bases:
    provided that, for each element of the data, multiplying by the
    exposure time it meets after dividing by it gives back the element
    within the tolerance [close], the correction followed by its undoing on
    the result returns an instance whose data have the original shape and
    are within the tolerance of the original at every index, and whose unit
    equals the original unit. *)
Theorem correction_round_trip self t u un (close : F → F → Prop) :
  constructed self →
  exposure_time_s self = Ok t →
  per_exposure t (nd_shape (data (nd self))) →
  uncertainty (nd self) = Some u →
  nd_shape u = nd_shape (data (nd self)) →
  unit (nd self) = Some un →
  in_bases "s" (decompose un) = false →
  (∀ idx, idx ∈ indices (nd_shape (data (nd self))) →
          close (fmul (fdiv (nd_get (data (nd self)) idx) (exposure_at t idx))
                      (exposure_at t idx))
                (nd_get (data (nd self)) idx)) →
  ∃ c1 c2,
    apply_exposure_time_correction self false false = Ok c1 ∧
    apply_exposure_time_correction c1 true false = Ok c2 ∧
    nd_shape (data (nd c2)) = nd_shape (data (nd self)) ∧
    (∀ idx, idx ∈ indices (nd_shape (data (nd self))) →
            close (nd_get (data (nd c2)) idx) (nd_get (data (nd self)) idx)) ∧
    ∃ un2, unit (nd c2) = Some un2 ∧ unit_eq un2 un.
Proof.
  intros Hself Ht Hper Hu Hshape Hun Hbase Hclose.
  pose proof (apply_per_exposure self t u un false false
                Hself Ht Hper Hu Hshape Hun) as H1.
  simpl in H1. rewrite Hbase in H1.
  set (d1 := rescaled fdiv (data (nd self)) t) in *.
  set (u1 := rescaled fdiv u t) in *.
  set (un1 := unit_div un u_s) in *.
  set (c1 := with_nd self (nd_update self d1 u1 un1)) in *.
  assert (Hc1 : constructed c1) by (by apply constructed_with_nd).
  pose proof (apply_per_exposure c1 t u1 un1 true false Hc1) as H2.
  assert (Ht1 : exposure_time_s c1 = Ok t)
    by (unfold c1; by rewrite exposure_time_s_nd_update).
  specialize (H2 Ht1 Hper eq_refl Hshape eq_refl). simpl in H2.
  assert (in_bases "s" (decompose (unit_mul un1 u_s)) = false) as Hbase2.
  { apply in_bases_decompose_false. apply in_bases_decompose_false in Hbase.
    unfold un1. rewrite power_unit_mul, power_unit_div, Hbase. ring. }
  rewrite Hbase2 in H2.
  eexists _, _. split; [exact H1|]. split; [exact H2|]. simpl.
  split; [done|]. split; [|eexists; split; [done|apply unit_round_trip]].
  intros idx Hidx. rewrite rescaled_get by done. unfold d1.
  rewrite rescaled_get by done. by apply Hclose.
Qed.

(** What the C7 sentence says of instances that do carry an uncertainty
    array: rows are divided by the exposure time of the row. *)
Lemma correction_rows_2d self e u un n m :
  constructed self →
  nd_shape (data (nd self)) = [n; m] →
  exposure_time_s self = Ok (NpArray e) →
  nd_shape e = [n] →
  uncertainty (nd self) = Some u →
  nd_shape u = [n; m] →
  unit (nd self) = Some un →
  in_bases "s" (decompose un) = false →
  ∃ c, apply_exposure_time_correction self false false = Ok c ∧
       nd_shape (data (nd c)) = [n; m] ∧
       ∀ i j, i < n → j < m →
              nd_get (data (nd c)) [i; j] =
              fdiv (nd_get (data (nd self)) [i; j]) (nth i (nd_flat e) inhabitant).
Proof.
  intros Hself Hs Ht He Hu Hus Hun Hbase.
  rewrite (apply_per_exposure self (NpArray e) u un false false); try done.
  - simpl. rewrite Hbase. eexists. split; [done|]. simpl. split; [done|].
    intros i j Hi Hj. rewrite rescaled_get; [done|]. rewrite Hs.
    apply elem_of_indices. by repeat constructor.
  - simpl. exists n, [m]. simpl. repeat split; [done|lia|done].
  - congruence.
Qed.

(** C7, what the code does on the failing input.  An instance built
    without an uncertainty (the default of the constructor) whose exposure
    time is resolved and reshaped: the correction raises [AttributeError]
    on [self.uncertainty.array] in place of returning the rescaled
    data. *)
Theorem correction_without_uncertainty_raises self t undo force :
  exposure_time_s self = Ok t →
  per_exposure t (nd_shape (data (nd self))) →
  uncertainty (nd self) = None →
  apply_exposure_time_correction self undo force =
    Raise (AttributeError "'NoneType' object has no attribute 'array'").
Proof.
  intros Ht Hper Hu. unfold apply_exposure_time_correction. rewrite Ht. simpl.
  destruct (reshape_per_exposure self t Hper) as (t' & -> & _). simpl.
  unfold uncertainty_array. by rewrite Hu.
Qed.

(** C8 (amended).  For every instance whose resolved exposure time is an
    array and whose data have a number of axes other than one, two or
    three (four, say), the correction raises the [ValueError] "dimensions
    must be 2 or 3", whatever [undo] and [force]; the number the message
    reports is 1, the number of axes of [self.dimensions] itself. *)
Theorem array_exposure_bad_dimensionality_raises self e undo force :
  exposure_time_s self = Ok (NpArray e) →
  ¬ (1 ≤ length (nd_shape (data (nd self))) ≤ 3) →
  apply_exposure_time_correction self undo force =
    Raise (ValueError "SpectrogramCube dimensions must be 2 or 3. Dimensions=1").
Proof.
  intros Ht Hdim. unfold apply_exposure_time_correction. rewrite Ht. simpl.
  unfold dimensions.
  destruct (length (nd_shape (data (nd self)))) as [|[|[|[|k]]]]; try lia; done.
Qed.

Lemma np_binop_scalar f a (x : F) :
  np_binop f a (mk_ndarray [] [x]) = Ok (rescaled f a (NpScalar x)).
Proof.
  unfold np_binop. simpl. rewrite broadcast_shapes_scalar. unfold rescaled.
  do 2 f_equal. apply list_fmap_ext. intros i idx Hidx%list_elem_of_lookup_2.
  by rewrite nd_getb_self, nd_getb_scalar.
Qed.

Lemma init_raises (super : NDCube F Quantity) ex :
  __init__ super = Raise ex →
  ex = TypeError "only size-1 arrays can be converted to Python scalars".
Proof.
  unfold __init__.
  pose proof (find_axis_name_outcomes SUPPORTED_LONGITUDE_NAMES
                (world_axis_physical_types super) (extra_coords super)) as H1.
  pose proof (find_axis_name_outcomes SUPPORTED_LATITUDE_NAMES
                (world_axis_physical_types super) (extra_coords super)) as H2.
  pose proof (find_axis_name_outcomes SUPPORTED_SPECTRAL_NAMES
                (world_axis_physical_types super) (extra_coords super)) as H3.
  pose proof (find_axis_name_outcomes SUPPORTED_TIME_NAMES
                (world_axis_physical_types super) (extra_coords super)) as H4.
  pose proof (find_axis_name_outcomes SUPPORTED_EXPOSURE_NAMES
                (world_axis_physical_types super) (extra_coords super)) as H5.
  destruct (_find_axis_name SUPPORTED_LONGITUDE_NAMES _ _) as [[? ?]|]; simpl;
    [|intros [= <-]; done].
  destruct (_find_axis_name SUPPORTED_LATITUDE_NAMES _ _) as [[? ?]|]; simpl;
    [|intros [= <-]; done].
  destruct (_find_axis_name SUPPORTED_SPECTRAL_NAMES _ _) as [[? ?]|]; simpl;
    [|intros [= <-]; done].
  destruct (_find_axis_name SUPPORTED_TIME_NAMES _ _) as [[? ?]|]; simpl;
    [|intros [= <-]; done].
  destruct (_find_axis_name SUPPORTED_EXPOSURE_NAMES _ _) as [[? ?]|]; simpl;
    [done|intros [= <-]; done].
Qed.

(** The correction with a scalar exposure time, step by step. *)
Lemma apply_scalar self (x : F) u un undo force :
  exposure_time_s self = Ok (NpScalar x) →
  uncertainty (nd self) = Some u →
  unit (nd self) = Some un →
  apply_exposure_time_correction self undo force =
    if negb force &&
       in_bases "s" (decompose (if undo then unit_mul un u_s else un))
    then Raise (ValueError (if undo then UNDO_EXPOSURE_TIME_ERROR
                            else APPLY_EXPOSURE_TIME_ERROR))
    else __init__ (nd_update self
                     (rescaled (if undo then fmul else fdiv) (data (nd self))
                               (NpScalar x))
                     (rescaled (if undo then fmul else fdiv) u (NpScalar x))
                     (if undo then unit_mul un u_s else unit_div un u_s)).
Proof.
  intros Ht Hu Hun. unfold apply_exposure_time_correction. rewrite Ht. simpl.
  unfold uncertainty_array. rewrite Hu, Hun. simpl.
  destruct undo, force; unfold _calculate_exposure_time_correction,
    _uncalculate_exposure_time_correction; simpl;
    try destruct (in_bases _ _); try done; simpl;
    unfold np_true_divide, np_multiply; simpl; rewrite !np_binop_scalar; done.
Qed.

(** Without an uncertainty or without a unit the correction raises an
    [AttributeError] or a [TypeError]. *)
Lemma apply_scalar_none self (x : F) undo force :
  exposure_time_s self = Ok (NpScalar x) →
  uncertainty (nd self) = None ∨ unit (nd self) = None →
  ∃ msg, apply_exposure_time_correction self undo force = Raise (AttributeError msg) ∨
         apply_exposure_time_correction self undo force = Raise (TypeError msg).
Proof.
  intros Ht Hnone. unfold apply_exposure_time_correction. rewrite Ht. simpl.
  unfold uncertainty_array.
  destruct (uncertainty (nd self)) as [u|]; simpl; [|eauto].
  destruct Hnone as [Hu | ->]; [done|].
  destruct undo, force; unfold _calculate_exposure_time_correction,
    _uncalculate_exposure_time_correction; simpl; eauto;
    unfold np_true_divide, np_multiply; simpl; rewrite !np_binop_scalar; simpl; eauto.
Qed.

(** C10 (amended).  For every instance whose resolved exposure time is a
    scalar, whatever the number of data axes (four, say): the correction
    never raises the dimensionality error, and whenever it returns, every
    element of the data has been divided (multiplied, when undoing) by the
    scalar.  For such an instance that has a unit and carries an
    uncertainty array: without [force] the correction raises the apply
    (undo) error exactly when the unit guard trips; and when the guard
    passes, or with [force], it returns an instance whose data and
    uncertainty are the originals with every element divided (multiplied)
    by the scalar, in the original shape, and whose unit is the old unit
    divided (multiplied) by seconds. *)
Theorem scalar_exposure_skips_dimension_check self (x : F) undo force :
  exposure_time_s self = Ok (NpScalar x) →
  apply_exposure_time_correction self undo force ≠ Raise (dimensions_error self) ∧
  (∀ c, apply_exposure_time_correction self undo force = Ok c →
        data (nd c) =
          rescaled (if undo then fmul else fdiv) (data (nd self)) (NpScalar x)) ∧
  (∀ u un, constructed self →
           uncertainty (nd self) = Some u →
           unit (nd self) = Some un →
           (apply_exposure_time_correction self undo false =
              Raise (ValueError (if undo then UNDO_EXPOSURE_TIME_ERROR
                                 else APPLY_EXPOSURE_TIME_ERROR)) ↔
            in_bases "s" (decompose (if undo then unit_mul un u_s else un)) = true) ∧
           (negb force &&
              in_bases "s" (decompose (if undo then unit_mul un u_s else un)) = false →
            ∃ c, apply_exposure_time_correction self undo force = Ok c ∧
                 data (nd c) =
                   rescaled (if undo then fmul else fdiv) (data (nd self)) (NpScalar x) ∧
                 uncertainty (nd c) =
                   Some (rescaled (if undo then fmul else fdiv) u (NpScalar x)) ∧
                 unit (nd c) =
                   Some (if undo then unit_mul un u_s else unit_div un u_s) ∧
                 nd_shape (data (nd c)) = nd_shape (data (nd self)) ∧
                 ∀ idx, idx ∈ indices (nd_shape (data (nd self))) →
                        nd_get (data (nd c)) idx =
                        (if undo then fmul else fdiv) (nd_get (data (nd self)) idx) x)).
Proof.
  intros Ht.
  destruct (uncertainty (nd self)) as [u|] eqn:Hu;
    [destruct (unit (nd self)) as [un|] eqn:Hun|].
  - split; [|split].
    + rewrite (apply_scalar self x u un undo force Ht Hu Hun).
      destruct (negb force && _).
      * unfold dimensions_error, dimensions_shape. destruct undo; intros H;
          vm_compute in H; discriminate H.
      * intros H%init_raises. discriminate H.
    + intros c. rewrite (apply_scalar self x u un undo force Ht Hu Hun).
      destruct (negb force && _); [done|]. intros Hc%init_nd. by rewrite Hc.
    + intros u' un' Hself [= <-] [= <-]. split.
      * rewrite (apply_scalar self x u un undo false Ht Hu Hun). simpl.
        destruct (in_bases _ _); [done|]. by rewrite (init_with_nd self).
      * intros Hguard. rewrite (apply_scalar self x u un undo force Ht Hu Hun), Hguard.
        rewrite (init_with_nd self) by done. eexists. split; [done|]. simpl.
        do 4 (split; [done|]). intros idx Hidx. by rewrite rescaled_get.
  - destruct (apply_scalar_none self x undo force Ht) as [msg [-> | ->]]; [by right|..];
      (split; [done|split; [done|intros ? ? ? ? ?; done]]).
  - destruct (apply_scalar_none self x undo force Ht) as [msg [-> | ->]]; [by left|..];
      (split; [done|split; [done|intros ? ? ? ?; done]]).
Qed.

(** C6, what the code does on the failing input.  When the cached time
    name is absent the [time] property raises [NameError]: it reads the
    global [SUPPORTED_TIMES_NAMES], which the module never binds (the
    constant is [SUPPORTED_TIME_NAMES]); and so does [lat] with
    [SUPPORTED_LATITUDE_NAME] when the latitude name is absent.  Neither
    raises the [ValueError] that names the quantity and lists its
    aliases. *)
Theorem time_and_lat_raise_name_error self :
  (_time_name self = None →
   time self = Raise (NameError "SUPPORTED_TIMES_NAMES")) ∧
  (_latitude_name self = None →
   lat self = Raise (NameError "SUPPORTED_LATITUDE_NAME")).
Proof. split; intros H; unfold time, lat, axis_property; by rewrite H. Qed.

(** The three sibling properties do what the C6 sentence says. *)
Lemma other_properties_raise_value_error self :
  (_spectral_name self = None →
   spectral_axis self =
     Raise (ValueError ("Spectral" +:+ AXIS_NOT_FOUND_ERROR +:+
                        array_str SUPPORTED_SPECTRAL_NAMES))) ∧
  (_exposure_time_name self = None →
   exposure_time self =
     Raise (ValueError ("Exposure time" +:+ AXIS_NOT_FOUND_ERROR +:+
                        array_str SUPPORTED_EXPOSURE_NAMES))) ∧
  (_longitude_name self = None →
   lon self =
     Raise (ValueError ("Longitude" +:+ AXIS_NOT_FOUND_ERROR +:+
                        array_str SUPPORTED_LONGITUDE_NAMES))).
Proof.
  repeat split; intros H;
    unfold spectral_axis, exposure_time, lon, axis_property; by rewrite H.
Qed.
End Claims.

Section ResolutionClaims.
Context {V : Type}.
Implicit Types (sup : list string) (W : list (option string))
               (E : option (list (string * V))) (items I : list (string * V)).

(** C4, what the code does on the failing input.  When two elements of
    the physical-type list are members of the supported set, resolution
    returns neither of them: the array of the two matching indices does not
    convert to an integer and [TypeError] is raised, whatever the side
    table holds. *)
Theorem two_supported_physical_types_raise sup W1 x W2 y W3 E :
  is_supported sup x = true →
  is_supported sup y = true →
  _find_axis_name sup (W1 ++ x :: W2 ++ y :: W3) E =
    Raise (TypeError "only size-1 arrays can be converted to Python scalars").
Proof.
  intros Hx Hy. unfold _find_axis_name. by rewrite find_name_two.
Qed.

(** C5, what the code does on the failing input.  When no physical type
    is a member of the supported set and two keys of the side table are,
    resolution returns no key: it raises [TypeError], for the same reason
    as with two matching physical types. *)
Theorem two_supported_keys_raise sup W I1 k1 (v1 : V) I2 k2 (v2 : V) I3 :
  (∀ y, y ∈ W → is_supported sup y = false) →
  k1 ∈ sup →
  k2 ∈ sup →
  _find_axis_name sup W (Some (I1 ++ (k1, v1) :: I2 ++ (k2, v2) :: I3)) =
    Raise (TypeError "only size-1 arrays can be converted to Python scalars").
Proof.
  intros HW Hk1 Hk2. unfold _find_axis_name. rewrite find_name_none by done. simpl.
  destruct (I1 ++ (k1, v1) :: I2 ++ (k2, v2) :: I3) as [|item items] eqn:HI.
  { by destruct I1. }
  rewrite <- HI. unfold keys_array.
  rewrite fmap_app, fmap_cons, fmap_app, fmap_cons. simpl.
  rewrite find_name_two; [done|by apply bool_decide_eq_true..].
Qed.
End ResolutionClaims.

(** * The claims on concrete inputs *)

(** The model at work: resolution of a spectral axis in the WCS and of the
    exposure time in the side table, and the correction of the 2 x 3
    raster, whose rows are divided by 2 s and by 3 s. *)
Example resolve_spectral_in_wcs :
  _find_axis_name (V := npvalue Q) SUPPORTED_SPECTRAL_NAMES
    [Some "time"; Some "em.wl"] None = Ok (Some "em.wl", Some "wcs").
Proof. reflexivity. Qed.

Example resolve_exposure_in_side_table :
  _find_axis_name SUPPORTED_EXPOSURE_NAMES [Some "time"; Some "em.wl"]
    (Some [("exposure time", NpArray exposures)]) =
    Ok (Some "exposure time", Some "extra_coords").
Proof. reflexivity. Qed.

Example raster_is_constructed :
  __init__ (cube_2x3 (Some sigma_2x3) counts) = Ok raster.
Proof. reflexivity. Qed.

Example raster_per_second_is_guarded :
  apply_exposure_time_correction raster_per_second false false =
    Raise (ValueError APPLY_EXPOSURE_TIME_ERROR).
Proof. reflexivity. Qed.

Example raster_rows_divided :
  ∃ c, apply_exposure_time_correction raster false false = Ok c ∧
       nd_shape (data (nd c)) = [2; 3] ∧
       Forall2 Qeq (nd_flat (data (nd c))) [1; 2; 3; 1; 2; 3]%Q ∧
       unit (nd c) = Some (unit_div counts u_s).
Proof.
  eexists. split; [reflexivity|]. split; [reflexivity|].
  split; [repeat constructor|reflexivity].
Qed.

(** C1 as stated fails: a four-dimensional cube with a per-exposure array
    and a unit per second raises the dimensionality error, not the
    apply-exposure-time error, although seconds are among the bases of its
    unit. *)
Lemma apply_correction_not_every_cube :
  constructed hypercube_per_second ∧
  exposure_time_s hypercube_per_second = Ok (NpArray exposures) ∧
  unit (nd hypercube_per_second) = Some per_second ∧
  in_bases "s" (decompose per_second) = true ∧
  apply_exposure_time_correction hypercube_per_second false false =
    Raise (ValueError "SpectrogramCube dimensions must be 2 or 3. Dimensions=1") ∧
  ¬ (apply_exposure_time_correction hypercube_per_second false false =
       Raise (ValueError APPLY_EXPOSURE_TIME_ERROR) ↔
     in_bases "s" (decompose per_second) = true).
Proof.
  repeat split; try reflexivity.
  intros [_ H]. specialize (H eq_refl). vm_compute in H. discriminate H.
Qed.

(** C2 as stated fails: on a four-dimensional cube in counts with a
    per-exposure array, unit times seconds has seconds among its bases and
    yet undoing raises the dimensionality error, not the undo error. *)
Lemma undo_correction_not_every_cube :
  constructed hypercube ∧
  exposure_time_s hypercube = Ok (NpArray exposures) ∧
  unit (nd hypercube) = Some counts ∧
  in_bases "s" (decompose (unit_mul counts u_s)) = true ∧
  apply_exposure_time_correction hypercube true false =
    Raise (ValueError "SpectrogramCube dimensions must be 2 or 3. Dimensions=1") ∧
  ¬ (apply_exposure_time_correction hypercube true false =
       Raise (ValueError UNDO_EXPOSURE_TIME_ERROR) ↔
     in_bases "s" (decompose (unit_mul counts u_s)) = true).
Proof.
  repeat split; try reflexivity.
  intros [_ H]. specialize (H eq_refl). vm_compute in H. discriminate H.
Qed.

(** C3 as stated fails: a four-dimensional cube in counts with exposure
    times 2 s and 3 s has no seconds in its unit, and the correction
    returns no cube to undo. *)
Lemma round_trip_not_every_cube :
  constructed hypercube ∧
  exposure_time_s hypercube = Ok (NpArray exposures) ∧
  unit (nd hypercube) = Some counts ∧
  in_bases "s" (decompose counts) = false ∧
  apply_exposure_time_correction hypercube false false =
    Raise (ValueError "SpectrogramCube dimensions must be 2 or 3. Dimensions=1") ∧
  ¬ (∃ c1, apply_exposure_time_correction hypercube false false = Ok c1).
Proof.
  repeat split; try reflexivity.
  intros [c1 H]. vm_compute in H. discriminate H.
Qed.

(** C8 as stated fails: a four-dimensional cube whose exposure time is the
    scalar 2 s is corrected, every element halved, and no error is
    raised. *)
Lemma scalar_exposure_4d_is_corrected :
  constructed hypercube_scalar ∧
  length (nd_shape (data (nd hypercube_scalar))) = 4 ∧
  exposure_time_s hypercube_scalar = Ok (NpScalar 2%Q) ∧
  ∃ c, apply_exposure_time_correction hypercube_scalar false false = Ok c ∧
       nd_shape (data (nd c)) = [2; 1; 1; 2] ∧
       Forall2 Qeq (nd_flat (data (nd c))) [1; 2; 3; 4]%Q.
Proof.
  repeat split; try reflexivity.
  eexists. split; [reflexivity|]. split; [reflexivity|].
  repeat constructor.
Qed.

(** C10 as stated fails: a four-dimensional cube in counts per second
    whose exposure time is the scalar 2 s passes the skipped dimensionality
    check and is stopped by the unit guard: the apply-exposure-time error
    is raised and the correction is applied to no element. *)
Lemma scalar_exposure_4d_still_guarded :
  constructed hypercube_scalar_per_second ∧
  length (nd_shape (data (nd hypercube_scalar_per_second))) = 4 ∧
  exposure_time_s hypercube_scalar_per_second = Ok (NpScalar 2%Q) ∧
  uncertainty (nd hypercube_scalar_per_second) =
    Some (mk_ndarray [2; 1; 1; 2] [1; 1; 2; 2]%Q) ∧
  unit (nd hypercube_scalar_per_second) = Some per_second ∧
  apply_exposure_time_correction hypercube_scalar_per_second false false =
    Raise (ValueError APPLY_EXPOSURE_TIME_ERROR) ∧
  ¬ (∃ c, apply_exposure_time_correction hypercube_scalar_per_second false false = Ok c).
Proof.
  repeat split; try reflexivity.
  intros [c H]. vm_compute in H. discriminate H.
Qed.

(** ** Instances of the theorems *)

Lemma apply_correction_guard_and_division_witness :
  (constructed raster ∧
   exposure_time_s raster = Ok (NpArray exposures) ∧
   per_exposure (NpArray exposures) (nd_shape (data (nd raster))) ∧
   uncertainty (nd raster) = Some sigma_2x3 ∧
   nd_shape sigma_2x3 = nd_shape (data (nd raster)) ∧
   unit (nd raster) = Some counts ∧
   in_bases "s" (decompose counts) = false) ∧
  apply_exposure_time_correction raster false false ≠
    Raise (ValueError APPLY_EXPOSURE_TIME_ERROR) ∧
  ∃ c, apply_exposure_time_correction raster false false = Ok c ∧
       data (nd c) = rescaled fdiv (data (nd raster)) (NpArray exposures) ∧
       uncertainty (nd c) = Some (rescaled fdiv sigma_2x3 (NpArray exposures)) ∧
       unit (nd c) = Some (unit_div counts u_s).
Proof.
  assert (Hper : per_exposure (NpArray exposures) (nd_shape (data (nd raster)))).
  { exists 2, [3]. repeat split; simpl; lia. }
  split.
  - repeat split; try reflexivity. exact Hper.
  - destruct (apply_correction_guard_and_division raster (NpArray exposures) sigma_2x3
                counts false) as [Hiff Hok];
      [reflexivity | reflexivity | exact Hper | reflexivity | reflexivity | reflexivity |].
    split.
    + intros Hraise. apply Hiff in Hraise. vm_compute in Hraise. discriminate Hraise.
    + apply Hok. right. reflexivity.
Defined.

Lemma undo_correction_guard_and_product_witness :
  (constructed raster_per_second ∧
   exposure_time_s raster_per_second = Ok (NpArray exposures) ∧
   per_exposure (NpArray exposures) (nd_shape (data (nd raster_per_second))) ∧
   uncertainty (nd raster_per_second) = Some sigma_2x3 ∧
   nd_shape sigma_2x3 = nd_shape (data (nd raster_per_second)) ∧
   unit (nd raster_per_second) = Some per_second ∧
   in_bases "s" (decompose (unit_mul per_second u_s)) = false) ∧
  apply_exposure_time_correction raster_per_second true false ≠
    Raise (ValueError UNDO_EXPOSURE_TIME_ERROR) ∧
  ¬ power per_second "s" ≠ (-1)%Qc ∧
  ∃ c, apply_exposure_time_correction raster_per_second true false = Ok c ∧
       data (nd c) = rescaled fmul (data (nd raster_per_second)) (NpArray exposures) ∧
       uncertainty (nd c) = Some (rescaled fmul sigma_2x3 (NpArray exposures)) ∧
       unit (nd c) = Some (unit_mul per_second u_s).
Proof.
  assert (Hper : per_exposure (NpArray exposures)
                   (nd_shape (data (nd raster_per_second)))).
  { exists 2, [3]. repeat split; simpl; lia. }
  split.
  - repeat split; try reflexivity. exact Hper.
  - destruct (undo_correction_guard_and_product raster_per_second (NpArray exposures)
                sigma_2x3 per_second false) as (Hiff & Hpow & Hok);
      [reflexivity | reflexivity | exact Hper | reflexivity | reflexivity | reflexivity |].
    split; [|split].
    + intros Hraise. apply Hiff in Hraise. vm_compute in Hraise. discriminate Hraise.
    + intros Hne. apply Hpow in Hne. vm_compute in Hne. discriminate Hne.
    + apply Hok. right. reflexivity.
Defined.

Lemma exposures_divide_exactly (y : Q) idx :
  idx ∈ indices [2; 3] →
  Qeq (fmul (fdiv y (exposure_at (NpArray exposures) idx))
            (exposure_at (NpArray exposures) idx)) y.
Proof.
  intros Hidx. apply elem_of_indices in Hidx.
  inversion Hidx as [|i ? idx' ? Hi _]; subst. simpl.
  destruct i as [|[|i]]; [| |lia]; simpl; field.
Qed.

Lemma correction_round_trip_witness :
  (constructed raster ∧
   exposure_time_s raster = Ok (NpArray exposures) ∧
   per_exposure (NpArray exposures) (nd_shape (data (nd raster))) ∧
   uncertainty (nd raster) = Some sigma_2x3 ∧
   nd_shape sigma_2x3 = nd_shape (data (nd raster)) ∧
   unit (nd raster) = Some counts ∧
   in_bases "s" (decompose counts) = false) ∧
  ∃ c1 c2,
    apply_exposure_time_correction raster false false = Ok c1 ∧
    apply_exposure_time_correction c1 true false = Ok c2 ∧
    nd_shape (data (nd c2)) = nd_shape (data (nd raster)) ∧
    (∀ idx, idx ∈ indices (nd_shape (data (nd raster))) →
            Qeq (nd_get (data (nd c2)) idx) (nd_get (data (nd raster)) idx)) ∧
    ∃ un2, unit (nd c2) = Some un2 ∧ unit_eq un2 counts.
Proof.
  assert (Hper : per_exposure (NpArray exposures) (nd_shape (data (nd raster)))).
  { exists 2, [3]. repeat split; simpl; lia. }
  split.
  - repeat split; try reflexivity. exact Hper.
  - apply (correction_round_trip raster (NpArray exposures) sigma_2x3 counts Qeq);
      [reflexivity | reflexivity | exact Hper | reflexivity | reflexivity | reflexivity
      | reflexivity | intros idx; apply exposures_divide_exactly].
Defined.

Lemma two_supported_physical_types_raise_witness :
  (is_supported SUPPORTED_TIME_NAMES (Some "time") = true ∧
   is_supported SUPPORTED_TIME_NAMES (Some "time") = true) ∧
  _find_axis_name (V := npvalue Q) SUPPORTED_TIME_NAMES
    ([] ++ Some "time" :: [Some "em.wl"] ++ Some "time" :: []) None =
    Raise (TypeError "only size-1 arrays can be converted to Python scalars").
Proof.
  split; [split; reflexivity|].
  apply (two_supported_physical_types_raise (V := npvalue Q) SUPPORTED_TIME_NAMES
           [] (Some "time") [Some "em.wl"] (Some "time") [] None); reflexivity.
Defined.

Lemma two_supported_keys_raise_witness :
  ((∀ y, y ∈ [Some "time"; Some "em.wl"] →
         is_supported SUPPORTED_EXPOSURE_NAMES y = false) ∧
   "exposure time" ∈ SUPPORTED_EXPOSURE_NAMES ∧
   "exp_time" ∈ SUPPORTED_EXPOSURE_NAMES) ∧
  _find_axis_name SUPPORTED_EXPOSURE_NAMES [Some "time"; Some "em.wl"]
    (Some ([] ++ ("exposure time", NpArray exposures) :: [] ++
           ("exp_time", NpArray exposures) :: [])) =
    Raise (TypeError "only size-1 arrays can be converted to Python scalars").
Proof.
  assert (HW : ∀ y, y ∈ [Some "time"; Some "em.wl"] →
                    is_supported SUPPORTED_EXPOSURE_NAMES y = false).
  { intros y Hy. repeat (apply elem_of_cons in Hy as [-> | Hy]; [reflexivity|]).
    by apply elem_of_nil in Hy. }
  assert (H1 : "exposure time" ∈ SUPPORTED_EXPOSURE_NAMES)
    by (apply (bool_decide_unpack _); vm_compute; exact I).
  assert (H2 : "exp_time" ∈ SUPPORTED_EXPOSURE_NAMES)
    by (apply (bool_decide_unpack _); vm_compute; exact I).
  split; [by repeat split|].
  apply (two_supported_keys_raise SUPPORTED_EXPOSURE_NAMES [Some "time"; Some "em.wl"]
           [] "exposure time" (NpArray exposures) [] "exp_time" (NpArray exposures) []);
    [exact HW | exact H1 | exact H2].
Defined.

Lemma time_and_lat_raise_name_error_witness :
  (_time_name spectrum_1d_self = None ∧ _latitude_name spectrum_1d_self = None) ∧
  time spectrum_1d_self = Raise (NameError "SUPPORTED_TIMES_NAMES") ∧
  lat spectrum_1d_self = Raise (NameError "SUPPORTED_LATITUDE_NAME").
Proof.
  split; [split; reflexivity|].
  destruct (time_and_lat_raise_name_error spectrum_1d_self) as [Ht Hl].
  split; [apply Ht | apply Hl]; reflexivity.
Defined.

Lemma correction_without_uncertainty_raises_witness :
  (constructed raster_bare ∧
   nd_shape (data (nd raster_bare)) = [2; 3] ∧
   exposure_time_s raster_bare = Ok (NpArray exposures) ∧
   per_exposure (NpArray exposures) (nd_shape (data (nd raster_bare))) ∧
   unit (nd raster_bare) = Some counts ∧
   in_bases "s" (decompose counts) = false ∧
   uncertainty (nd raster_bare) = None) ∧
  apply_exposure_time_correction raster_bare false false =
    Raise (AttributeError "'NoneType' object has no attribute 'array'").
Proof.
  assert (Hper : per_exposure (NpArray exposures) (nd_shape (data (nd raster_bare)))).
  { exists 2, [3]. repeat split; simpl; lia. }
  split.
  - repeat split; try reflexivity. exact Hper.
  - apply (correction_without_uncertainty_raises raster_bare (NpArray exposures));
      [reflexivity | exact Hper | reflexivity].
Defined.

Lemma array_exposure_bad_dimensionality_raises_witness :
  (exposure_time_s hypercube = Ok (NpArray exposures) ∧
   length (nd_shape (data (nd hypercube))) = 4) ∧
  apply_exposure_time_correction hypercube false false =
    Raise (ValueError "SpectrogramCube dimensions must be 2 or 3. Dimensions=1").
Proof.
  split; [split; reflexivity|].
  apply (array_exposure_bad_dimensionality_raises hypercube exposures);
    [reflexivity | simpl; lia].
Defined.

Lemma scalar_exposure_skips_dimension_check_witness :
  (constructed hypercube_scalar ∧
   length (nd_shape (data (nd hypercube_scalar))) = 4 ∧
   exposure_time_s hypercube_scalar = Ok (NpScalar 2%Q) ∧
   uncertainty (nd hypercube_scalar) = Some (mk_ndarray [2; 1; 1; 2] [1; 1; 2; 2]%Q) ∧
   unit (nd hypercube_scalar) = Some counts ∧
   negb false && in_bases "s" (decompose counts) = false) ∧
  apply_exposure_time_correction hypercube_scalar false false ≠
    Raise (dimensions_error hypercube_scalar) ∧
  ∃ c, apply_exposure_time_correction hypercube_scalar false false = Ok c ∧
       data (nd c) = rescaled fdiv (data (nd hypercube_scalar)) (NpScalar 2%Q) ∧
       uncertainty (nd c) =
         Some (rescaled fdiv (mk_ndarray [2; 1; 1; 2] [1; 1; 2; 2]%Q) (NpScalar 2%Q)) ∧
       unit (nd c) = Some (unit_div counts u_s) ∧
       nd_shape (data (nd c)) = [2; 1; 1; 2].
Proof.
  split; [repeat split; reflexivity|].
  destruct (scalar_exposure_skips_dimension_check hypercube_scalar 2%Q false false)
    as (Hno & _ & Hdone); [reflexivity|].
  split; [exact Hno|].
  destruct (Hdone (mk_ndarray [2; 1; 1; 2] [1; 1; 2; 2]%Q) counts) as (_ & Hret);
    [reflexivity | reflexivity | reflexivity |].
  destruct Hret as (c & Hc & Hdata & Hunc & Hunit & Hshape & _); [reflexivity|].
  exists c. repeat split; assumption.
Defined.

(** * Resolution, construction and correction in full *)

(** ** The name search in terms of the supported elements *)

Section Hits.
Implicit Types (sup : list string) (A : list (option string)).

Lemma hits_nil sup A :
  hits sup A = [] ↔ ∀ y, y ∈ A → is_supported sup y = false.
Proof.
  unfold hits. induction A as [|a A IH].
  - split; [|done]. intros _ y Hy. by apply elem_of_nil in Hy.
  - rewrite filter_cons. case_decide as Ha.
    + split; [done|]. intros H. rewrite (H a) in Ha; [done|by left].
    + rewrite IH. split.
      * intros H y [->|Hy]%elem_of_cons; [by apply not_true_is_false | by apply H].
      * intros H y Hy. apply H. by right.
Qed.

Lemma hits_cons_inv sup A x l :
  hits sup A = x :: l →
  ∃ A1 A2, A = A1 ++ x :: A2 ∧ is_supported sup x = true ∧
           (∀ y, y ∈ A1 → is_supported sup y = false) ∧ hits sup A2 = l.
Proof.
  unfold hits. induction A as [|a A IH]; [done|].
  rewrite filter_cons. case_decide as Ha.
  - intros [= -> <-]. exists [], A. split; [done|]. split; [done|]. split; [|done].
    intros y Hy. by apply elem_of_nil in Hy.
  - intros H. destruct (IH H) as (A1 & A2 & -> & Hx & H1 & H2).
    exists (a :: A1), A2. split; [done|]. split; [done|]. split; [|done].
    intros y [->|Hy]%elem_of_cons; [by apply not_true_is_false | by apply H1].
Qed.

Lemma hits_elem_of sup A x :
  x ∈ hits sup A ↔ ∃ s, x = Some s ∧ s ∈ sup ∧ Some s ∈ A.
Proof.
  unfold hits. rewrite list_elem_of_filter. split.
  - intros [Hx HA]. destruct x as [s|]; [|done]. exists s.
    simpl in Hx. apply bool_decide_eq_true in Hx. done.
  - intros (s & -> & Hs & HA). split; [|done]. simpl. by apply bool_decide_eq_true.
Qed.

(** The search answers by the number of supported elements. *)
Lemma find_name_hits sup A :
  _find_name_in_array sup A =
    match hits sup A with
    | [] => Ok None
    | [x] => Ok x
    | _ => Raise (TypeError "only size-1 arrays can be converted to Python scalars")
    end.
Proof.
  destruct (hits sup A) as [|x [|y l]] eqn:H.
  - apply find_name_none. by apply hits_nil.
  - apply hits_cons_inv in H as (A1 & A2 & -> & Hx & H1 & H2).
    apply find_name_unique; [done..|]. by apply hits_nil.
  - apply hits_cons_inv in H as (A1 & A2 & -> & Hx & H1 & H2).
    apply hits_cons_inv in H2 as (A2' & A3 & -> & Hy & _ & _).
    by apply find_name_two.
Qed.

(** X1.  [_find_name_in_array] is decided by the supported elements of
    the array alone: it returns [None] exactly when there is none, it
    returns a name exactly when that name is the only supported element
    (so a returned name is a supported name that occurs in the array), and
    it raises the [TypeError] of [int()] exactly when there are two or
    more. *)
Theorem find_name_in_array_by_hits sup A :
  (_find_name_in_array sup A = Ok None ↔ hits sup A = []) ∧
  (∀ s, _find_name_in_array sup A = Ok (Some s) ↔ hits sup A = [Some s]) ∧
  (∀ s, _find_name_in_array sup A = Ok (Some s) → s ∈ sup ∧ Some s ∈ A) ∧
  (_find_name_in_array sup A =
     Raise (TypeError "only size-1 arrays can be converted to Python scalars") ↔
   2 ≤ length (hits sup A)).
Proof.
  rewrite find_name_hits.
  destruct (hits sup A) as [|x [|y l]] eqn:H; simpl.
  - split; [done|]. split; [done|]. split; [done|]. split; [done|lia].
  - assert (x ∈ hits sup A) as (s' & -> & Hs & HA)%hits_elem_of by (rewrite H; by left).
    split; [done|]. split; [|split].
    + intros s. split; congruence.
    + by intros s [= <-].
    + split; [done|lia].
  - split; [done|]. split; [done|]. split; [done|]. split; [intros _; lia|done].
Qed.
End Hits.

(** None of the alias sets that resolution is run with holds the empty
    string. *)
Lemma alias_sets_not_empty sup : sup ∈ alias_sets → "" ∉ sup.
Proof.
  destruct supported_names_not_empty as (? & ? & ? & ? & ?).
  unfold alias_sets. intros Hin.
  repeat (apply elem_of_cons in Hin as [->|Hin]; [done|]). by apply elem_of_nil in Hin.
Qed.

(** ** Resolution in terms of the supported elements *)

Section ResolutionProperties.
Context {V : Type}.
Implicit Types (sup : list string) (W : list (option string))
               (E : option (list (string * V))) (items : list (string * V)).

Lemma hits_singleton_truthy sup W x :
  "" ∉ sup → hits sup W = [x] → ∃ s, x = Some s ∧ s ∈ sup ∧ truthy x = true.
Proof.
  intros Hempty H.
  assert (x ∈ hits sup W) as (s & -> & Hs & _)%hits_elem_of by (rewrite H; by left).
  exists s. split; [done|]. split; [done|]. simpl.
  apply negb_true_iff, String.eqb_neq. by intros ->.
Qed.

Lemma hits_permutation sup W W' : W ≡ₚ W' → hits sup W ≡ₚ hits sup W'.
Proof. intros HW. unfold hits. by rewrite HW. Qed.

Lemma find_name_permutation sup W W' :
  W ≡ₚ W' → _find_name_in_array sup W = _find_name_in_array sup W'.
Proof.
  intros HW%(hits_permutation sup). rewrite !find_name_hits.
  destruct (hits sup W) as [|x [|y l]].
  - apply Permutation_nil_l in HW. by rewrite <- HW.
  - apply Permutation_singleton_l in HW. by rewrite <- HW.
  - apply Permutation_length in HW. by destruct (hits sup W') as [|x' [|y' l']].
Qed.

(** When the empty string is no supported name, the resolution answers
    by the supported elements of the two sources. *)
Lemma find_axis_name_hits sup W E :
  "" ∉ sup →
  _find_axis_name sup W E =
    match hits sup W with
    | [] =>
        match E with
        | Some items =>
            match hits sup (keys_array items) with
            | [] => Ok (None, None)
            | [k] => Ok (k, Some "extra_coords")
            | _ => Raise (TypeError "only size-1 arrays can be converted to Python scalars")
            end
        | None => Ok (None, None)
        end
    | [x] => Ok (x, Some "wcs")
    | _ => Raise (TypeError "only size-1 arrays can be converted to Python scalars")
    end.
Proof.
  intros Hempty. unfold _find_axis_name. rewrite find_name_hits.
  destruct (hits sup W) as [|x [|y l]] eqn:HW; simpl; [| |done].
  - destruct E as [[|item items]|]; [done| |done].
    rewrite find_name_hits.
    destruct (hits sup (keys_array (item :: items))) as [|k [|k' l]] eqn:HK; simpl; [done| |done].
    by destruct (hits_singleton_truthy _ _ _ Hempty HK) as (s & -> & _ & ->).
  - by destruct (hits_singleton_truthy _ _ _ Hempty HW) as (s & -> & _ & ->).
Qed.

Lemma find_axis_name_resolves sup W E name loc :
  "" ∉ sup →
  _find_axis_name sup W E = Ok (name, loc) →
  resolves_to sup W E name loc.
Proof.
  intros Hempty. rewrite find_axis_name_hits by done. unfold resolves_to, unmatched.
  destruct (hits sup W) as [|x [|y l]] eqn:HW; [| |done].
  - destruct E as [items|].
    + destruct (hits sup (keys_array items)) as [|k [|k' l]] eqn:HK; [| |done].
      * intros [= <- <-]. split; [done|]. split; [done|]. by intros ? [= <-].
      * destruct (hits_singleton_truthy _ _ _ Hempty HK) as (s & -> & _ & _).
        intros [= <- <-]. right. split; [done|]. split; [done|]. by exists items.
    + intros [= <- <-]. done.
  - destruct (hits_singleton_truthy _ _ _ Hempty HW) as (s & -> & _ & _).
    intros [= <- <-]. by left.
Qed.

Lemma find_axis_name_ambiguous sup W E :
  "" ∉ sup →
  (∃ e, _find_axis_name sup W E = Raise e) ↔ ambiguous sup W E.
Proof.
  intros Hempty. rewrite find_axis_name_hits by done. unfold ambiguous.
  destruct (hits sup W) as [|x [|y l]] eqn:HW; simpl.
  - destruct E as [items|].
    + destruct (hits sup (keys_array items)) as [|k [|k' l]] eqn:HK; simpl.
      * split; [by intros [e ?]|]. intros [?|(_ & items' & [= <-] & Hlen)]; [lia|].
        rewrite HK in Hlen. simpl in Hlen. lia.
      * split; [by intros [e ?]|]. intros [?|(_ & items' & [= <-] & Hlen)]; [lia|].
        rewrite HK in Hlen. simpl in Hlen. lia.
      * split; [|by eauto]. intros _. right. split; [done|]. exists items.
        split; [done|]. rewrite HK. simpl. lia.
    + split; [by intros [e ?]|]. intros [?|(_ & items' & ? & _)]; [lia|done].
  - split; [by intros [e ?]|]. intros [?|(? & _)]; [lia|done].
  - split; [|by eauto]. intros _. left. lia.
Qed.

(** C9.  For each of the five alias sets, the supported-name sets that
    resolution is run with, and for every physical-type list and side
    table: in the pair that [_find_axis_name] returns the source is
    present if and only if the name is present, so it is never the case
    that exactly one of the two is absent, and a source that is present is
    "wcs" or "extra_coords"; and a pair is returned whenever the quantity
    is not matched several times. *)
Theorem find_axis_name_source_iff_name sup W E :
  sup ∈ alias_sets →
  (∀ name loc, _find_axis_name sup W E = Ok (name, loc) →
               (is_Some loc ↔ is_Some name) ∧
               ¬ (is_Some loc ∧ name = None) ∧
               ¬ (is_Some name ∧ loc = None) ∧
               (loc = None ∨ loc = Some "wcs" ∨ loc = Some "extra_coords")) ∧
  (¬ ambiguous sup W E → ∃ name loc, _find_axis_name sup W E = Ok (name, loc)).
Proof.
  intros Hempty%alias_sets_not_empty. split.
  - intros name loc Hfind.
    pose proof (find_axis_name_present sup W E name loc Hempty Hfind) as Hiff.
    pose proof (find_axis_name_outcomes sup W E) as Hout. rewrite Hfind in Hout.
    destruct Hout as (_ & _ & Hloc).
    split; [exact Hiff|]. split; [|split; [|exact Hloc]].
    + intros [Hl ->]. apply Hiff in Hl. by destruct Hl.
    + intros [Hn ->]. apply Hiff in Hn. by destruct Hn.
  - intros Hamb. destruct (_find_axis_name sup W E) as [[name loc]|e] eqn:Hfind.
    + by exists name, loc.
    + destruct Hamb. apply find_axis_name_ambiguous; [done|]. by exists e.
Qed.

(** X2.  The answer of [_find_axis_name] does not depend on the order of
    the physical types, nor on the order of the keys of the side table:
    on rearranged inputs it returns the same pair or raises the same
    error. *)
Theorem find_axis_name_order_independent sup W W' items items' :
  W ≡ₚ W' →
  items ≡ₚ items' →
  _find_axis_name sup W (Some items) = _find_axis_name sup W' (Some items') ∧
  _find_axis_name (V := V) sup W None = _find_axis_name (V := V) sup W' None.
Proof.
  intros HW HI. unfold _find_axis_name.
  rewrite (find_name_permutation sup W W' HW).
  destruct (_find_name_in_array sup W') as [x|e]; simpl; [|done].
  destruct (truthy x); [done|]. split; [|done].
  assert (_find_name_in_array sup (keys_array items) =
          _find_name_in_array sup (keys_array items')) as HK.
  { apply find_name_permutation. unfold keys_array. by rewrite HI. }
  destruct items as [|item items], items' as [|item' items''].
  - done.
  - by apply Permutation_nil_l in HI.
  - by apply Permutation_nil_r in HI.
  - by rewrite HK.
Qed.

(** X3.  When exactly one physical type is supported, and it is not the
    empty string, [_find_axis_name] returns it with the source "wcs",
    whatever the side table holds: the side table is not consulted, not
    even when several of its keys are supported. *)
Theorem single_physical_type_wins sup W s E :
  hits sup W = [Some s] →
  s ≠ "" →
  _find_axis_name sup W E = Ok (Some s, Some "wcs").
Proof.
  intros HW Hne. unfold _find_axis_name. rewrite find_name_hits, HW. simpl.
  by apply String.eqb_neq in Hne as ->.
Qed.

(** X4.  When no physical type is supported and exactly one key of the
    side table is, and it is not the empty string, [_find_axis_name]
    returns that key with the source "extra_coords". *)
Theorem single_key_is_the_fallback sup W items k :
  hits sup W = [] →
  hits sup (keys_array items) = [Some k] →
  k ≠ "" →
  _find_axis_name sup W (Some items) = Ok (Some k, Some "extra_coords").
Proof.
  intros HW HK Hne. unfold _find_axis_name. rewrite find_name_hits, HW. simpl.
  destruct items as [|item items]; [done|].
  rewrite find_name_hits, HK. simpl.
  by apply String.eqb_neq in Hne as ->.
Qed.

Lemma find_axis_name_unmatched sup W E :
  "" ∉ sup → unmatched sup W E → _find_axis_name sup W E = Ok (None, None).
Proof.
  intros Hempty [HW HE]. rewrite find_axis_name_hits, HW by done.
  destruct E as [items|]; [|done]. by rewrite (HE items).
Qed.

Lemma resolves_to_supported sup W E s loc :
  resolves_to sup W E (Some s) loc → s ∈ sup.
Proof.
  intros [[_ H]|(_ & _ & items & _ & H)].
  - assert (Some s ∈ hits sup W) as (s' & [= <-] & Hs & _)%hits_elem_of
      by (rewrite H; by left). done.
  - assert (Some s ∈ hits sup (keys_array items)) as (s' & [= <-] & Hs & _)%hits_elem_of
      by (rewrite H; by left). done.
Qed.

Lemma assoc_lookup_key items k :
  Some k ∈ keys_array items → is_Some (assoc_lookup k items).
Proof.
  unfold keys_array. induction items as [|[k' v] items IH].
  - intros H. by apply elem_of_nil in H.
  - rewrite fmap_cons. simpl. intros [[= ->]|H]%elem_of_cons.
    + rewrite String.eqb_refl. by eexists.
    + destruct (String.eqb k k'); [by eexists|by apply IH].
Qed.

(** X5.  For a supported-name set without the empty string,
    [_find_axis_name] returns [(None, None)] exactly when no physical type
    is supported and the side table is absent, empty or without a
    supported key. *)
Theorem unresolved_iff_unmatched sup W E :
  "" ∉ sup →
  _find_axis_name sup W E = Ok (None, None) ↔ unmatched sup W E.
Proof.
  intros Hempty. split.
  - intros H. by apply (find_axis_name_resolves sup W E None None) in H as [_ H].
  - by apply find_axis_name_unmatched.
Qed.
End ResolutionProperties.

(** ** The alias sets *)

Lemma disjoint_by_computation (A B : list string) s :
  bool_decide (Forall (λ x, x ∉ B) A) = true → s ∈ A → s ∈ B → False.
Proof.
  intros H%bool_decide_eq_true HA HB. rewrite Forall_forall in H. by apply (H s).
Qed.

(** A name cannot be an alias of two quantities. *)
Ltac two_quantities :=
  match goal with
  | H1 : ?s ∈ ?A, H2 : ?s ∈ ?B |- False =>
      apply (disjoint_by_computation A B s); [vm_compute; reflexivity | exact H1 | exact H2]
  end.

(** ** Construction and the coordinate properties *)

Section InstanceProperties.
Context {F Quantity : Type} `{!Inhabited F} `{!Externals F Quantity}.
Implicit Types (self c : SpectrogramCube F Quantity) (super : NDCube F Quantity)
               (t : npvalue F) (a u e : ndarray F) (un : Unit) (undo force : bool).

(** The cached names and locations are the answers of the five
    resolutions. *)
Lemma init_resolutions super self :
  __init__ super = Ok self →
  _find_axis_name SUPPORTED_LONGITUDE_NAMES (world_axis_physical_types super)
    (extra_coords super) = Ok (_longitude_name self, _longitude_loc self) ∧
  _find_axis_name SUPPORTED_LATITUDE_NAMES (world_axis_physical_types super)
    (extra_coords super) = Ok (_latitude_name self, _latitude_loc self) ∧
  _find_axis_name SUPPORTED_SPECTRAL_NAMES (world_axis_physical_types super)
    (extra_coords super) = Ok (_spectral_name self, _spectral_loc self) ∧
  _find_axis_name SUPPORTED_TIME_NAMES (world_axis_physical_types super)
    (extra_coords super) = Ok (_time_name self, _time_loc self) ∧
  _find_axis_name SUPPORTED_EXPOSURE_NAMES (world_axis_physical_types super)
    (extra_coords super) = Ok (_exposure_time_name self, _exposure_time_loc self).
Proof.
  unfold __init__. intros Hself.
  destruct (_find_axis_name SUPPORTED_LONGITUDE_NAMES _ _) as [[? ?]|] eqn:E1;
    simpl in Hself; [|done].
  destruct (_find_axis_name SUPPORTED_LATITUDE_NAMES _ _) as [[? ?]|] eqn:E2;
    simpl in Hself; [|done].
  destruct (_find_axis_name SUPPORTED_SPECTRAL_NAMES _ _) as [[? ?]|] eqn:E3;
    simpl in Hself; [|done].
  destruct (_find_axis_name SUPPORTED_TIME_NAMES _ _) as [[? ?]|] eqn:E4;
    simpl in Hself; [|done].
  destruct (_find_axis_name SUPPORTED_EXPOSURE_NAMES _ _) as [[? ?]|] eqn:E5;
    simpl in Hself; [|done].
  by injection Hself as <-.
Qed.

(** X6.  The constructor fails exactly when one of the five quantities
    is ambiguous, that is matched by several physical types or, no
    physical type matching, by several keys of the side table; the failure
    is the [TypeError] of [int()], and for every other container state an
    instance is built. *)
Theorem init_raises_iff_ambiguous super :
  (__init__ super =
     Raise (TypeError "only size-1 arrays can be converted to Python scalars") ↔
   ∃ sup, sup ∈ alias_sets ∧
          ambiguous sup (world_axis_physical_types super) (extra_coords super)) ∧
  ((∃ self, __init__ super = Ok self) ↔
   ∀ sup, sup ∈ alias_sets →
          ¬ ambiguous sup (world_axis_physical_types super) (extra_coords super)).
Proof.
  assert (Hraise : (∃ ex, __init__ super = Raise ex) ↔
            ∃ sup, sup ∈ alias_sets ∧
                   ambiguous sup (world_axis_physical_types super) (extra_coords super)).
  { split.
    - intros [ex Hex]. unfold __init__ in Hex.
      destruct (_find_axis_name SUPPORTED_LONGITUDE_NAMES _ _) as [[? ?]|] eqn:E1;
        simpl in Hex;
        [|exists SUPPORTED_LONGITUDE_NAMES; split; [by eapply (list_elem_of_lookup_2 _ 0)|];
          apply find_axis_name_ambiguous; [by apply supported_names_not_empty|by eauto]].
      destruct (_find_axis_name SUPPORTED_LATITUDE_NAMES _ _) as [[? ?]|] eqn:E2;
        simpl in Hex;
        [|exists SUPPORTED_LATITUDE_NAMES; split; [by eapply (list_elem_of_lookup_2 _ 1)|];
          apply find_axis_name_ambiguous; [by apply supported_names_not_empty|by eauto]].
      destruct (_find_axis_name SUPPORTED_SPECTRAL_NAMES _ _) as [[? ?]|] eqn:E3;
        simpl in Hex;
        [|exists SUPPORTED_SPECTRAL_NAMES; split; [by eapply (list_elem_of_lookup_2 _ 2)|];
          apply find_axis_name_ambiguous; [by apply supported_names_not_empty|by eauto]].
      destruct (_find_axis_name SUPPORTED_TIME_NAMES _ _) as [[? ?]|] eqn:E4;
        simpl in Hex;
        [|exists SUPPORTED_TIME_NAMES; split; [by eapply (list_elem_of_lookup_2 _ 3)|];
          apply find_axis_name_ambiguous; [by apply supported_names_not_empty|by eauto]].
      destruct (_find_axis_name SUPPORTED_EXPOSURE_NAMES _ _) as [[? ?]|] eqn:E5;
        simpl in Hex;
        [done|exists SUPPORTED_EXPOSURE_NAMES; split; [by eapply (list_elem_of_lookup_2 _ 4)|];
          apply find_axis_name_ambiguous; [by apply supported_names_not_empty|by eauto]].
    - intros (sup & Hin & Hamb).
      apply find_axis_name_ambiguous in Hamb as [e He]; [|by apply alias_sets_not_empty].
      destruct (__init__ super) as [self|ex] eqn:Hinit; [|by eauto].
      destruct (init_resolutions _ _ Hinit) as (E1 & E2 & E3 & E4 & E5).
      unfold alias_sets in Hin.
      repeat (apply elem_of_cons in Hin as [->|Hin]; [congruence|]).
      by apply elem_of_nil in Hin. }
  split.
  - rewrite <- Hraise. split; [by eauto|]. intros [ex Hex].
    by rewrite Hex, (init_raises _ _ Hex).
  - split.
    + intros [self Hself] sup Hin Hamb.
      destruct Hraise as [_ [ex Hex]]; [by eauto|]. congruence.
    + intros Hno. destruct (__init__ super) as [self|ex] eqn:Hinit; [by eauto|].
      destruct Hraise as [(sup & Hin & Hamb) _]; [by eauto|]. by destruct (Hno sup).
Qed.

(** X7.  In every instance the ten cached fields describe the container
    state: a cached name with location "wcs" is the only supported physical
    type of its quantity; one with location "extra_coords" is the only
    supported key of the side table, no physical type being supported; and
    where no name is cached, the location is absent too and neither source
    holds a supported name. *)
Theorem constructed_names_resolve self :
  constructed self →
  resolves_to SUPPORTED_LONGITUDE_NAMES (world_axis_physical_types (nd self))
    (extra_coords (nd self)) (_longitude_name self) (_longitude_loc self) ∧
  resolves_to SUPPORTED_LATITUDE_NAMES (world_axis_physical_types (nd self))
    (extra_coords (nd self)) (_latitude_name self) (_latitude_loc self) ∧
  resolves_to SUPPORTED_SPECTRAL_NAMES (world_axis_physical_types (nd self))
    (extra_coords (nd self)) (_spectral_name self) (_spectral_loc self) ∧
  resolves_to SUPPORTED_TIME_NAMES (world_axis_physical_types (nd self))
    (extra_coords (nd self)) (_time_name self) (_time_loc self) ∧
  resolves_to SUPPORTED_EXPOSURE_NAMES (world_axis_physical_types (nd self))
    (extra_coords (nd self)) (_exposure_time_name self) (_exposure_time_loc self).
Proof.
  intros Hself. destruct (init_resolutions _ _ Hself) as (E1 & E2 & E3 & E4 & E5).
  destruct supported_names_not_empty as (N1 & N2 & N3 & N4 & N5).
  repeat split; by apply find_axis_name_resolves.
Qed.

(** X8.  No two quantities of an instance share a name: the cached names
    that are present are pairwise distinct, since no alias belongs to two of
    the five alias sets. *)
Theorem cached_names_distinct self :
  constructed self → NoDup (cached_names self).
Proof.
  intros Hself. destruct (init_resolutions _ _ Hself) as (E1 & E2 & E3 & E4 & E5).
  destruct supported_names_not_empty as (N1 & N2 & N3 & N4 & N5).
  apply (find_axis_name_resolves _ _ _ _ _ N1) in E1.
  apply (find_axis_name_resolves _ _ _ _ _ N2) in E2.
  apply (find_axis_name_resolves _ _ _ _ _ N3) in E3.
  apply (find_axis_name_resolves _ _ _ _ _ N4) in E4.
  apply (find_axis_name_resolves _ _ _ _ _ N5) in E5.
  unfold cached_names.
  destruct (_longitude_name self) as [s1|];
    [apply resolves_to_supported in E1|clear E1];
  (destruct (_latitude_name self) as [s2|];
    [apply resolves_to_supported in E2|clear E2]);
  (destruct (_spectral_name self) as [s3|];
    [apply resolves_to_supported in E3|clear E3]);
  (destruct (_time_name self) as [s4|];
    [apply resolves_to_supported in E4|clear E4]);
  (destruct (_exposure_time_name self) as [s5|];
    [apply resolves_to_supported in E5|clear E5]);
  simpl;
  repeat (apply NoDup_cons; split; [|]); try apply NoDup_nil_2;
  rewrite ?not_elem_of_cons; repeat split; try apply not_elem_of_nil;
  intros ->; two_quantities.
Qed.

Lemma axis_property_reads self label names_global sup name loc s :
  "" ∉ sup →
  resolves_to sup (world_axis_physical_types (nd self)) (extra_coords (nd self)) name loc →
  name = Some s →
  read_from (nd self) s loc (axis_property self label names_global name loc).
Proof.
  intros Hempty Hres ->.
  assert (Hs : s ∈ sup) by (by eapply resolves_to_supported).
  assert (Ht : truthy (Some s) = true).
  { simpl. apply negb_true_iff, String.eqb_neq. by intros ->. }
  unfold axis_property. rewrite Ht. simpl. unfold _get_axis_coord. simpl.
  destruct Hres as [[-> HW]|(-> & HW & items & HE & HK)].
  - left. split; [done|]. split.
    + assert (Some s ∈ hits sup (world_axis_physical_types (nd self)))
        as (s' & [= <-] & _ & HA)%hits_elem_of by (rewrite HW; by left). done.
    + by rewrite decide_True.
  - right. split; [done|]. rewrite decide_False, decide_True, HE by done.
    assert (Some s ∈ keys_array items) as [q Hq]%assoc_lookup_key.
    { assert (Some s ∈ hits sup (keys_array items))
        as (s' & [= <-] & _ & HA)%hits_elem_of by (rewrite HK; by left). done. }
    exists items, q. by rewrite Hq.
Qed.

(** X9.  On every instance each of the five coordinate properties, when
    the name of its quantity is cached, reads the source the cached
    location names: the WCS lookup of that physical type, or the value
    stored under that key of the side table, which is there.  So no
    property fails with a missing key or a missing side table or returns
    [None], and [time] and [lat] work whenever their axis is resolved. *)
Theorem properties_read_resolved_source self :
  constructed self →
  (∀ s, _longitude_name self = Some s →
        read_from (nd self) s (_longitude_loc self) (lon self)) ∧
  (∀ s, _latitude_name self = Some s →
        read_from (nd self) s (_latitude_loc self) (lat self)) ∧
  (∀ s, _spectral_name self = Some s →
        read_from (nd self) s (_spectral_loc self) (spectral_axis self)) ∧
  (∀ s, _time_name self = Some s →
        read_from (nd self) s (_time_loc self) (time self)) ∧
  (∀ s, _exposure_time_name self = Some s →
        read_from (nd self) s (_exposure_time_loc self) (exposure_time self)).
Proof.
  intros Hself. destruct (init_resolutions _ _ Hself) as (E1 & E2 & E3 & E4 & E5).
  destruct supported_names_not_empty as (N1 & N2 & N3 & N4 & N5).
  apply (find_axis_name_resolves _ _ _ _ _ N1) in E1.
  apply (find_axis_name_resolves _ _ _ _ _ N2) in E2.
  apply (find_axis_name_resolves _ _ _ _ _ N3) in E3.
  apply (find_axis_name_resolves _ _ _ _ _ N4) in E4.
  apply (find_axis_name_resolves _ _ _ _ _ N5) in E5.
  split; [|split; [|split; [|split]]]; intros s Hs.
  - by apply (axis_property_reads _ _ _ SUPPORTED_LONGITUDE_NAMES).
  - by apply (axis_property_reads _ _ _ SUPPORTED_LATITUDE_NAMES).
  - by apply (axis_property_reads _ _ _ SUPPORTED_SPECTRAL_NAMES).
  - by apply (axis_property_reads _ _ _ SUPPORTED_TIME_NAMES).
  - by apply (axis_property_reads _ _ _ SUPPORTED_EXPOSURE_NAMES).
Qed.

(** X10.  On an instance whose container holds no spectral alias,
    neither among the physical types nor among the keys of the side table,
    [spectral_axis] raises the [ValueError] that starts with "Spectral axis
    not found" and lists the spectral aliases; likewise [exposure_time]
    and [lon] for their quantities. *)
Theorem unresolved_properties_raise self :
  constructed self →
  (unmatched SUPPORTED_SPECTRAL_NAMES (world_axis_physical_types (nd self))
             (extra_coords (nd self)) →
   spectral_axis self =
     Raise (ValueError ("Spectral" +:+ AXIS_NOT_FOUND_ERROR +:+
                        array_str SUPPORTED_SPECTRAL_NAMES))) ∧
  (unmatched SUPPORTED_EXPOSURE_NAMES (world_axis_physical_types (nd self))
             (extra_coords (nd self)) →
   exposure_time self =
     Raise (ValueError ("Exposure time" +:+ AXIS_NOT_FOUND_ERROR +:+
                        array_str SUPPORTED_EXPOSURE_NAMES))) ∧
  (unmatched SUPPORTED_LONGITUDE_NAMES (world_axis_physical_types (nd self))
             (extra_coords (nd self)) →
   lon self =
     Raise (ValueError ("Longitude" +:+ AXIS_NOT_FOUND_ERROR +:+
                        array_str SUPPORTED_LONGITUDE_NAMES))).
Proof.
  intros Hself. destruct (init_resolutions _ _ Hself) as (E1 & _ & E3 & _ & E5).
  destruct supported_names_not_empty as (N1 & _ & N3 & _ & N5).
  split; [|split]; intros Hun.
  - rewrite (find_axis_name_unmatched _ _ _ N3 Hun) in E3. injection E3 as E3 _.
    unfold spectral_axis, axis_property. by rewrite <- E3.
  - rewrite (find_axis_name_unmatched _ _ _ N5 Hun) in E5. injection E5 as E5 _.
    unfold exposure_time, axis_property. by rewrite <- E5.
  - rewrite (find_axis_name_unmatched _ _ _ N1 Hun) in E1. injection E1 as E1 _.
    unfold lon, axis_property. by rewrite <- E1.
Qed.

(** ** The correction *)

(** X13.  On an instance whose container holds no exposure-time alias,
    the correction raises the [ValueError] "Exposure time axis not found"
    of the [exposure_time] property, whatever [undo] and [force], the unit,
    the uncertainty and the number of data axes. *)
Theorem correction_without_exposure_time_raises self undo force :
  constructed self →
  unmatched SUPPORTED_EXPOSURE_NAMES (world_axis_physical_types (nd self))
            (extra_coords (nd self)) →
  apply_exposure_time_correction self undo force =
    Raise (ValueError ("Exposure time" +:+ AXIS_NOT_FOUND_ERROR +:+
                       array_str SUPPORTED_EXPOSURE_NAMES)).
Proof.
  intros Hself Hun. destruct (init_resolutions _ _ Hself) as (_ & _ & _ & _ & E5).
  destruct supported_names_not_empty as (_ & _ & _ & _ & N5).
  rewrite (find_axis_name_unmatched _ _ _ N5 Hun) in E5. injection E5 as E5 _.
  unfold apply_exposure_time_correction, exposure_time_s, exposure_time, axis_property.
  by rewrite <- E5.
Qed.

(** The correction of the result of a correction: the exposure time is
    looked up afresh and is the one of the original instance. *)
Lemma apply_again self t d1 u1 un1 undo force :
  constructed self →
  exposure_time_s self = Ok t →
  per_exposure t (nd_shape (data (nd self))) →
  nd_shape d1 = nd_shape (data (nd self)) →
  nd_shape u1 = nd_shape (data (nd self)) →
  apply_exposure_time_correction (with_nd self (nd_update self d1 u1 un1)) undo force =
    if negb force &&
       in_bases "s" (decompose (if undo then unit_mul un1 u_s else un1))
    then Raise (ValueError (if undo then UNDO_EXPOSURE_TIME_ERROR
                            else APPLY_EXPOSURE_TIME_ERROR))
    else Ok (with_nd self
               (nd_update self
                  (rescaled (if undo then fmul else fdiv) d1 t)
                  (rescaled (if undo then fmul else fdiv) u1 t)
                  (if undo then unit_mul un1 u_s else unit_div un1 u_s))).
Proof.
  intros Hself Ht Hper Hd Hu.
  rewrite (apply_per_exposure (with_nd self (nd_update self d1 u1 un1)) t u1 un1 undo force);
    [done|by apply constructed_with_nd|by rewrite exposure_time_s_nd_update
    |simpl; by rewrite Hd|done|simpl; by rewrite Hd, Hu|done].
Qed.

Lemma in_bases_after_division un :
  in_bases "s" (decompose un) = false →
  in_bases "s" (decompose (unit_div un u_s)) = true.
Proof.
  intros Hp%in_bases_decompose_false. apply in_bases_decompose.
  rewrite power_unit_div, power_u_s, Hp. done.
Qed.

Lemma in_bases_after_product un :
  in_bases "s" (decompose (unit_mul un u_s)) = false →
  in_bases "s" (decompose (unit_mul (unit_mul un u_s) u_s)) = true.
Proof.
  intros Hp%in_bases_decompose_false. apply in_bases_decompose.
  rewrite power_unit_mul, Hp, power_u_s. done.
Qed.

Lemma unit_round_trip_back un : unit_eq (unit_div (unit_mul un u_s) u_s) un.
Proof.
  apply unit_eq_iff. split.
  - simpl. field. done.
  - intros b. rewrite power_unit_div, power_unit_mul. ring.
Qed.

(** X14.  The guard against a second correction: on an instance with a
    unit free of seconds, an uncertainty array shaped like the data and an
    exposure time that is a scalar or one value per position along the
    first of at most three axes, the correction succeeds, and applying it
    again to the result raises the apply-exposure-time error; with
    [force] the second application goes through, dividing data that were
    divided already and leaving a unit per second squared. *)
Theorem correction_not_applied_twice self t u un :
  constructed self →
  exposure_time_s self = Ok t →
  per_exposure t (nd_shape (data (nd self))) →
  uncertainty (nd self) = Some u →
  nd_shape u = nd_shape (data (nd self)) →
  unit (nd self) = Some un →
  in_bases "s" (decompose un) = false →
  ∃ c, apply_exposure_time_correction self false false = Ok c ∧
       apply_exposure_time_correction c false false =
         Raise (ValueError APPLY_EXPOSURE_TIME_ERROR) ∧
       ∃ c2, apply_exposure_time_correction c false true = Ok c2 ∧
             data (nd c2) = rescaled fdiv (rescaled fdiv (data (nd self)) t) t ∧
             unit (nd c2) = Some (unit_div (unit_div un u_s) u_s).
Proof.
  intros Hself Ht Hper Hu Hshape Hun Hbase.
  pose proof (apply_per_exposure self t u un false false
                Hself Ht Hper Hu Hshape Hun) as H1.
  simpl in H1. rewrite Hbase in H1.
  eexists. split; [exact H1|]. split.
  - rewrite (apply_again self t) by done. simpl. by rewrite in_bases_after_division.
  - eexists. split; [by rewrite (apply_again self t)|]. done.
Qed.

(** X15.  The guard against a second undoing: on an instance whose unit
    holds seconds to the power -1, with an uncertainty array shaped like
    the data and an exposure time that is a scalar or one value per
    position along the first of at most three axes, undoing succeeds, and
    undoing again on the result raises the undo-exposure-time error; with
    [force] the second undoing goes through, multiplying once more. *)
Theorem correction_not_undone_twice self t u un :
  constructed self →
  exposure_time_s self = Ok t →
  per_exposure t (nd_shape (data (nd self))) →
  uncertainty (nd self) = Some u →
  nd_shape u = nd_shape (data (nd self)) →
  unit (nd self) = Some un →
  in_bases "s" (decompose (unit_mul un u_s)) = false →
  ∃ c, apply_exposure_time_correction self true false = Ok c ∧
       apply_exposure_time_correction c true false =
         Raise (ValueError UNDO_EXPOSURE_TIME_ERROR) ∧
       ∃ c2, apply_exposure_time_correction c true true = Ok c2 ∧
             data (nd c2) = rescaled fmul (rescaled fmul (data (nd self)) t) t ∧
             unit (nd c2) = Some (unit_mul (unit_mul un u_s) u_s).
Proof.
  intros Hself Ht Hper Hu Hshape Hun Hbase.
  pose proof (apply_per_exposure self t u un true false
                Hself Ht Hper Hu Hshape Hun) as H1.
  simpl in H1. rewrite Hbase in H1.
  eexists. split; [exact H1|]. split.
  - rewrite (apply_again self t) by done. simpl. by rewrite in_bases_after_product.
  - eexists. split; [by rewrite (apply_again self t)|]. done.
Qed.

(** X16.  The round trip taken from the other end: on an instance whose
    unit holds seconds to the power -1 (and with the uncertainty and
    exposure time as above), undoing the correction and then applying it
    to the result returns an instance whose data have the original shape
    and are within the tolerance of the original at every index, provided
    that dividing by the exposure time after multiplying by it gives each
    element back within the tolerance; its unit equals the original
    unit. *)
Theorem undo_then_apply_round_trip self t u un (close : F → F → Prop) :
  constructed self →
  exposure_time_s self = Ok t →
  per_exposure t (nd_shape (data (nd self))) →
  uncertainty (nd self) = Some u →
  nd_shape u = nd_shape (data (nd self)) →
  unit (nd self) = Some un →
  in_bases "s" (decompose (unit_mul un u_s)) = false →
  (∀ idx, idx ∈ indices (nd_shape (data (nd self))) →
          close (fdiv (fmul (nd_get (data (nd self)) idx) (exposure_at t idx))
                      (exposure_at t idx))
                (nd_get (data (nd self)) idx)) →
  ∃ c1 c2,
    apply_exposure_time_correction self true false = Ok c1 ∧
    apply_exposure_time_correction c1 false false = Ok c2 ∧
    nd_shape (data (nd c2)) = nd_shape (data (nd self)) ∧
    (∀ idx, idx ∈ indices (nd_shape (data (nd self))) →
            close (nd_get (data (nd c2)) idx) (nd_get (data (nd self)) idx)) ∧
    ∃ un2, unit (nd c2) = Some un2 ∧ unit_eq un2 un.
Proof.
  intros Hself Ht Hper Hu Hshape Hun Hbase Hclose.
  pose proof (apply_per_exposure self t u un true false
                Hself Ht Hper Hu Hshape Hun) as H1.
  simpl in H1. rewrite Hbase in H1.
  eexists _, _. split; [exact H1|]. split.
  { rewrite (apply_again self t) by done. simpl. by rewrite Hbase. }
  simpl. split; [done|]. split; [|eexists; split; [done|apply unit_round_trip_back]].
  intros idx Hidx. rewrite !rescaled_get by done. by apply Hclose.
Qed.

(** X17.  Along the first axis: on an instance whose data have shape
    (n, ...) with one, two or three axes, whose exposure time is an array of
    n values and whose uncertainty array is shaped like the data, the
    correction, when the unit guard passes or [force] is set, returns data
    and uncertainty of the same shape in which the element at index
    (i, ...) is the original element divided (multiplied, when undoing) by
    the i-th exposure time. *)
Theorem correction_along_first_axis self e u un n rest undo force :
  constructed self →
  nd_shape (data (nd self)) = n :: rest →
  length rest ≤ 2 →
  exposure_time_s self = Ok (NpArray e) →
  nd_shape e = [n] →
  uncertainty (nd self) = Some u →
  nd_shape u = n :: rest →
  unit (nd self) = Some un →
  negb force && in_bases "s" (decompose (if undo then unit_mul un u_s else un)) = false →
  ∃ c u', apply_exposure_time_correction self undo force = Ok c ∧
          uncertainty (nd c) = Some u' ∧
          nd_shape (data (nd c)) = n :: rest ∧
          nd_shape u' = n :: rest ∧
          ∀ i idx, i < n → idx ∈ indices rest →
            nd_get (data (nd c)) (i :: idx) =
              (if undo then fmul else fdiv) (nd_get (data (nd self)) (i :: idx))
                                            (nth i (nd_flat e) inhabitant) ∧
            nd_get u' (i :: idx) =
              (if undo then fmul else fdiv) (nd_get u (i :: idx))
                                            (nth i (nd_flat e) inhabitant).
Proof.
  intros Hself Hs Hrest Ht He Hu Hus Hun Hguard.
  rewrite (apply_per_exposure self (NpArray e) u un undo force); try done.
  - rewrite Hguard. eexists _, _. split; [done|]. simpl. split; [done|].
    split; [done|]. split; [done|]. intros i idx Hi Hidx.
    assert (Hin : (i :: idx) ∈ indices (n :: rest)).
    { apply elem_of_indices. constructor; [done|]. by apply elem_of_indices. }
    rewrite !rescaled_get by (by rewrite ?Hs, ?Hus). done.
  - simpl. by exists n, rest.
  - congruence.
Qed.

Lemma reshape_first_axis self e k n rest :
  nd_shape (data (nd self)) = n :: rest →
  length rest ≤ 2 →
  nd_shape e = [k] →
  reshape_exposure_time self (NpArray e) =
    Ok (NpArray (mk_ndarray (k :: replicate (length rest) 1) (nd_flat e))).
Proof.
  intros Hs Hrest He. unfold reshape_exposure_time, dimensions, np_newaxis.
  rewrite Hs, He. destruct e as [se fe]. simpl in *. subst se.
  destruct rest as [|? [|? [|? ?]]]; simpl in *; try done. lia.
Qed.

Lemma broadcast_rev_mismatch s n k :
  broadcast_dim n k = None →
  broadcast_rev (s ++ [n]) (replicate (length s) 1 ++ [k]) = None.
Proof.
  intros Hnk. induction s as [|m s IH]; simpl.
  - by rewrite Hnk.
  - rewrite broadcast_dim_one. simpl. by rewrite IH.
Qed.

Lemma broadcast_shapes_mismatch n k rest :
  k ≠ n → k ≠ 1 → n ≠ 1 →
  broadcast_shapes (n :: rest) (k :: replicate (length rest) 1) = None.
Proof.
  intros Hkn Hk Hn. unfold broadcast_shapes. rewrite !reverse_cons, reverse_replicate.
  rewrite <- (length_reverse rest), broadcast_rev_mismatch; [done|].
  unfold broadcast_dim. by rewrite !decide_False.
Qed.

(** X18.  An exposure-time array that does not line up with the first
    axis: when the data have shape (n, ...) with one, two or three axes and
    the exposure time is an array of k values, k different from n and
    neither of them 1, the correction, once past the unit guard, raises the
    [ValueError] of numpy's broadcasting ("operands could not be broadcast
    together ...") and returns nothing. *)
Theorem exposure_length_mismatch_raises self e u un n k rest undo force :
  nd_shape (data (nd self)) = n :: rest →
  length rest ≤ 2 →
  exposure_time_s self = Ok (NpArray e) →
  nd_shape e = [k] →
  k ≠ n → k ≠ 1 → n ≠ 1 →
  uncertainty (nd self) = Some u →
  unit (nd self) = Some un →
  negb force && in_bases "s" (decompose (if undo then unit_mul un u_s else un)) = false →
  ∃ shapes, apply_exposure_time_correction self undo force =
              Raise (ValueError ("operands could not be broadcast together" +:+ shapes)).
Proof.
  intros Hs Hrest Ht He Hkn Hk Hn Hu Hun Hguard. exists "".
  unfold apply_exposure_time_correction. rewrite Ht.
  remember (NpArray e) as t eqn:Et. simpl. subst t.
  rewrite (reshape_first_axis self e k n rest) by done. simpl.
  unfold uncertainty_array. rewrite Hu, Hun. simpl.
  destruct undo, force; simpl in Hguard;
    unfold _calculate_exposure_time_correction, _uncalculate_exposure_time_correction;
    simpl; rewrite ?Hguard; simpl;
    unfold np_true_divide, np_multiply, np_binop; simpl;
    by rewrite Hs, broadcast_shapes_mismatch.
Qed.

(** X19.  An instance built without a unit (the default of the
    constructor) cannot be corrected: with the exposure time and the
    uncertainty in order, applying the correction without [force] raises
    [AttributeError] (from [None.decompose()]), and applying it with
    [force], or undoing it with or without [force], raises [TypeError]
    (from [None / u.s] or [None * u.s]). *)
Theorem correction_without_unit_raises self t u undo force :
  exposure_time_s self = Ok t →
  per_exposure t (nd_shape (data (nd self))) →
  uncertainty (nd self) = Some u →
  nd_shape u = nd_shape (data (nd self)) →
  unit (nd self) = None →
  ∃ msg, apply_exposure_time_correction self undo force =
           Raise (if negb force && negb undo then AttributeError msg else TypeError msg).
Proof.
  intros Ht Hper Hu Hshape Hun. unfold apply_exposure_time_correction.
  rewrite Ht. simpl.
  destruct (reshape_per_exposure self t Hper) as (t' & -> & Hop). simpl.
  unfold uncertainty_array. rewrite Hu, Hun. simpl.
  destruct undo, force; unfold _calculate_exposure_time_correction,
    _uncalculate_exposure_time_correction; simpl;
    unfold np_true_divide, np_multiply; rewrite ?Hop by done; simpl; by eexists.
Qed.

Lemma reshape_raises self t ex :
  reshape_exposure_time self t = Raise ex →
  ex = dimensions_error self ∨ ex = IndexError "too many indices for array".
Proof.
  unfold reshape_exposure_time, np_newaxis. destruct t as [x|a]; [done|].
  destruct (length (dimensions self)) as [|[|[|[|k]]]]; simpl;
    try (intros [= <-]; by left); try done;
    (destruct (nd_shape a); simpl; [intros [= <-]; by right|done]).
Qed.

Lemma np_binop_raises f (a b : ndarray F) ex :
  np_binop f a b = Raise ex →
  ex = ValueError "operands could not be broadcast together".
Proof.
  unfold np_binop. destruct (broadcast_shapes _ _); [done|]. by intros [= <-].
Qed.

Lemma guard_message_not_dimensions self undo :
  dimensions_error self ≠
  ValueError (if undo then UNDO_EXPOSURE_TIME_ERROR else APPLY_EXPOSURE_TIME_ERROR).
Proof.
  unfold dimensions_error, dimensions_shape. destruct undo; intros H;
    vm_compute in H; discriminate H.
Qed.

(** X20.  [force] does nothing but bypass the unit guard: a correction
    that succeeds without [force] returns the same instance with [force];
    on an instance with a unit whose guard passes the two calls agree in
    every respect, errors included; and once the exposure time is read,
    a call with [force] never raises the guard's error. *)
Theorem force_only_bypasses_guard self undo :
  (∀ c, apply_exposure_time_correction self undo false = Ok c →
        apply_exposure_time_correction self undo true = Ok c) ∧
  (∀ un, unit (nd self) = Some un →
         in_bases "s" (decompose (if undo then unit_mul un u_s else un)) = false →
         apply_exposure_time_correction self undo false =
         apply_exposure_time_correction self undo true) ∧
  (∀ t, exposure_time_s self = Ok t →
        apply_exposure_time_correction self undo true ≠
        Raise (ValueError (if undo then UNDO_EXPOSURE_TIME_ERROR
                           else APPLY_EXPOSURE_TIME_ERROR))).
Proof.
  assert (Hsame : ∀ un, unit (nd self) = Some un →
            in_bases "s" (decompose (if undo then unit_mul un u_s else un)) = false →
            apply_exposure_time_correction self undo false =
            apply_exposure_time_correction self undo true).
  { intros un Hun Hguard. unfold apply_exposure_time_correction.
    destruct (exposure_time_s self) as [t|]; simpl; [|done].
    destruct (reshape_exposure_time self t) as [t'|]; simpl; [|done].
    destruct (uncertainty_array self) as [u|]; simpl; [|done].
    rewrite Hun. destruct undo; unfold _calculate_exposure_time_correction,
      _uncalculate_exposure_time_correction; simpl; by rewrite Hguard. }
  split; [|split; [exact Hsame|]].
  - intros c Hc. destruct (unit (nd self)) as [un|] eqn:Hun.
    + destruct (in_bases "s" (decompose (if undo then unit_mul un u_s else un)))
        eqn:Hguard; [|by rewrite <- (Hsame un)].
      exfalso. revert Hc. unfold apply_exposure_time_correction.
      destruct (exposure_time_s self) as [t|]; simpl; [|done].
      destruct (reshape_exposure_time self t) as [t'|]; simpl; [|done].
      destruct (uncertainty_array self) as [u|]; simpl; [|done].
      rewrite Hun. destruct undo; unfold _calculate_exposure_time_correction,
        _uncalculate_exposure_time_correction; simpl; by rewrite Hguard.
    + exfalso. revert Hc. unfold apply_exposure_time_correction.
      destruct (exposure_time_s self) as [t|]; simpl; [|done].
      destruct (reshape_exposure_time self t) as [t'|]; simpl; [|done].
      destruct (uncertainty_array self) as [u|]; simpl; [|done].
      rewrite Hun. by destruct undo.
  - intros t Ht. unfold apply_exposure_time_correction. rewrite Ht. simpl.
    destruct (reshape_exposure_time self t) as [t'|ex] eqn:Hr; simpl.
    2:{ apply reshape_raises in Hr as [-> | ->]; [|done].
        intros H. apply (guard_message_not_dimensions self undo). congruence. }
    unfold uncertainty_array. destruct (uncertainty (nd self)) as [u|]; simpl; [|done].
    destruct undo; unfold _calculate_exposure_time_correction,
      _uncalculate_exposure_time_correction, np_true_divide, np_multiply; simpl.
    + destruct (np_binop fmul (data (nd self)) _) as [d'|ex] eqn:Hd; simpl;
        [|by apply np_binop_raises in Hd as ->].
      destruct (np_binop fmul u _) as [u'|ex] eqn:Hu; simpl;
        [|by apply np_binop_raises in Hu as ->].
      destruct (unit (nd self)); simpl; [|done].
      intros H%init_raises. discriminate H.
    + destruct (np_binop fdiv (data (nd self)) _) as [d'|ex] eqn:Hd; simpl;
        [|by apply np_binop_raises in Hd as ->].
      destruct (np_binop fdiv u _) as [u'|ex] eqn:Hu; simpl;
        [|by apply np_binop_raises in Hu as ->].
      destruct (unit (nd self)); simpl; [|done].
      intros H%init_raises. discriminate H.
Qed.

Lemma broadcast_rev_all_ones s : broadcast_rev s (replicate (length s) 1) = Some s.
Proof.
  induction s as [|m s IH]; [done|]. simpl. rewrite broadcast_dim_one. simpl.
  by rewrite IH.
Qed.

Lemma broadcast_shapes_all_ones s : broadcast_shapes s (replicate (length s) 1) = Some s.
Proof.
  unfold broadcast_shapes. rewrite reverse_replicate, <- (length_reverse s).
  rewrite broadcast_rev_all_ones. simpl. by rewrite reverse_involutive.
Qed.

(** An array whose axes all have length one is read at its only element. *)
Lemma nd_getb_all_ones (fl : list F) m idx :
  nd_getb (mk_ndarray (replicate m 1) fl) idx = nth 0 fl inhabitant.
Proof. unfold nd_getb, nd_get, broadcast_index. simpl. by rewrite offset_ones. Qed.

Lemma np_binop_all_ones f a (fl : list F) :
  np_binop f a (mk_ndarray (replicate (length (nd_shape a)) 1) fl) =
    Ok (rescaled f a (NpScalar (nth 0 fl inhabitant))).
Proof.
  unfold np_binop. simpl. rewrite broadcast_shapes_all_ones. unfold rescaled.
  do 2 f_equal. apply list_fmap_ext. intros i idx Hidx%list_elem_of_lookup_2.
  by rewrite nd_getb_self, nd_getb_all_ones.
Qed.

(** X21.  An exposure-time array of a single element is broadcast
    against the whole first axis: on data of shape (n, ...) with one, two or
    three axes it gives the data, uncertainty and unit that the scalar
    exposure time with that value gives, for any n. *)
Theorem single_exposure_array_acts_as_scalar self e u un n rest undo force :
  constructed self →
  nd_shape (data (nd self)) = n :: rest →
  length rest ≤ 2 →
  exposure_time_s self = Ok (NpArray e) →
  nd_shape e = [1] →
  uncertainty (nd self) = Some u →
  nd_shape u = n :: rest →
  unit (nd self) = Some un →
  negb force && in_bases "s" (decompose (if undo then unit_mul un u_s else un)) = false →
  ∃ c, apply_exposure_time_correction self undo force = Ok c ∧
       data (nd c) =
         rescaled (if undo then fmul else fdiv) (data (nd self))
                  (NpScalar (nth 0 (nd_flat e) inhabitant)) ∧
       uncertainty (nd c) =
         Some (rescaled (if undo then fmul else fdiv) u
                        (NpScalar (nth 0 (nd_flat e) inhabitant))) ∧
       unit (nd c) = Some (if undo then unit_mul un u_s else unit_div un u_s).
Proof.
  intros Hself Hs Hrest Ht He Hu Hus Hun Hguard.
  assert (Hop : ∀ f a, nd_shape a = n :: rest →
            np_binop f a (mk_ndarray (1 :: replicate (length rest) 1) (nd_flat e)) =
            Ok (rescaled f a (NpScalar (nth 0 (nd_flat e) inhabitant)))).
  { intros f a Ha. rewrite <- np_binop_all_ones. by rewrite Ha. }
  unfold apply_exposure_time_correction. rewrite Ht.
  remember (NpArray e) as t eqn:Et. simpl. subst t.
  rewrite (reshape_first_axis self e 1 n rest) by done. simpl.
  unfold uncertainty_array. rewrite Hu, Hun. simpl.
  destruct undo, force; simpl in Hguard;
    unfold _calculate_exposure_time_correction, _uncalculate_exposure_time_correction;
    simpl; rewrite ?Hguard; simpl;
    unfold np_true_divide, np_multiply; simpl; rewrite !Hop by done; simpl;
    (eexists; split; [by apply init_with_nd|done]).
Qed.
End InstanceProperties.

(** ** Instances of these properties *)

Lemma find_axis_name_source_iff_name_witness :
  SUPPORTED_EXPOSURE_NAMES ∈ alias_sets ∧
  _find_axis_name SUPPORTED_EXPOSURE_NAMES [Some "time"; Some "em.wl"]
    (Some [("exposure time", NpArray exposures)]) =
    Ok (Some "exposure time", Some "extra_coords") ∧
  (is_Some (Some "extra_coords") ↔ is_Some (Some "exposure time")).
Proof.
  assert (Hin : SUPPORTED_EXPOSURE_NAMES ∈ alias_sets)
    by (apply (list_elem_of_lookup_2 _ 4); reflexivity).
  split; [exact Hin|]. split; [reflexivity|].
  destruct (find_axis_name_source_iff_name SUPPORTED_EXPOSURE_NAMES
              [Some "time"; Some "em.wl"]
              (Some [("exposure time", NpArray exposures)]) Hin) as [Hpair _].
  exact (proj1 (Hpair (Some "exposure time") (Some "extra_coords") eq_refl)).
Defined.

Lemma find_axis_name_order_independent_witness :
  ([Some "time"; Some "em.wl"] ≡ₚ [Some "em.wl"; Some "time"]) ∧
  ([("exposure time", NpArray exposures); ("note", NpScalar 1%Q)] ≡ₚ
   [("note", NpScalar 1%Q); ("exposure time", NpArray exposures)]) ∧
  _find_axis_name SUPPORTED_EXPOSURE_NAMES [Some "time"; Some "em.wl"]
    (Some [("exposure time", NpArray exposures); ("note", NpScalar 1%Q)]) =
  _find_axis_name SUPPORTED_EXPOSURE_NAMES [Some "em.wl"; Some "time"]
    (Some [("note", NpScalar 1%Q); ("exposure time", NpArray exposures)]).
Proof.
  assert (HW : [Some "time"; Some "em.wl"] ≡ₚ [Some "em.wl"; Some "time"])
    by apply perm_swap.
  assert (HI : [("exposure time", NpArray exposures); ("note", NpScalar 1%Q)] ≡ₚ
               [("note", NpScalar 1%Q); ("exposure time", NpArray exposures)])
    by apply perm_swap.
  split; [exact HW|]. split; [exact HI|].
  exact (proj1 (find_axis_name_order_independent SUPPORTED_EXPOSURE_NAMES _ _ _ _ HW HI)).
Defined.

Lemma single_physical_type_wins_witness :
  (hits SUPPORTED_TIME_NAMES [Some "time"; Some "em.wl"] = [Some "time"] ∧ "time" ≠ "") ∧
  _find_axis_name SUPPORTED_TIME_NAMES [Some "time"; Some "em.wl"]
    (Some [("time", NpArray exposures); ("TIME", NpArray exposures)]) =
    Ok (Some "time", Some "wcs").
Proof.
  split; [split; [reflexivity|discriminate]|].
  apply (single_physical_type_wins SUPPORTED_TIME_NAMES [Some "time"; Some "em.wl"] "time");
    [reflexivity|discriminate].
Defined.

Lemma single_key_is_the_fallback_witness :
  (hits SUPPORTED_EXPOSURE_NAMES [Some "time"; Some "em.wl"] = [] ∧
   hits SUPPORTED_EXPOSURE_NAMES
     (keys_array [("note", NpScalar 1%Q); ("exposure time", NpArray exposures)]) =
     [Some "exposure time"] ∧
   "exposure time" ≠ "") ∧
  _find_axis_name SUPPORTED_EXPOSURE_NAMES [Some "time"; Some "em.wl"]
    (Some [("note", NpScalar 1%Q); ("exposure time", NpArray exposures)]) =
    Ok (Some "exposure time", Some "extra_coords").
Proof.
  split; [split; [reflexivity|split; [reflexivity|discriminate]]|].
  apply (single_key_is_the_fallback SUPPORTED_EXPOSURE_NAMES [Some "time"; Some "em.wl"]
           [("note", NpScalar 1%Q); ("exposure time", NpArray exposures)] "exposure time");
    [reflexivity|reflexivity|discriminate].
Defined.

Lemma unresolved_iff_unmatched_witness :
  ("" ∉ SUPPORTED_EXPOSURE_NAMES) ∧
  (_find_axis_name SUPPORTED_EXPOSURE_NAMES [Some "time"; Some "em.wl"]
     (Some [("note", NpScalar 1%Q)]) = Ok (None, None) ↔
   unmatched SUPPORTED_EXPOSURE_NAMES [Some "time"; Some "em.wl"]
     (Some [("note", NpScalar 1%Q)])).
Proof.
  assert (Hempty : "" ∉ SUPPORTED_EXPOSURE_NAMES)
    by (apply (bool_decide_unpack _); vm_compute; exact I).
  split; [exact Hempty|].
  exact (unresolved_iff_unmatched SUPPORTED_EXPOSURE_NAMES [Some "time"; Some "em.wl"]
           (Some [("note", NpScalar 1%Q)]) Hempty).
Defined.

Lemma constructed_names_resolve_witness :
  constructed raster ∧
  resolves_to SUPPORTED_SPECTRAL_NAMES (world_axis_physical_types (nd raster))
    (extra_coords (nd raster)) (Some "em.wl") (Some "wcs") ∧
  resolves_to SUPPORTED_EXPOSURE_NAMES (world_axis_physical_types (nd raster))
    (extra_coords (nd raster)) (Some "exposure time") (Some "extra_coords").
Proof.
  split; [reflexivity|].
  destruct (constructed_names_resolve raster eq_refl) as (_ & _ & Hspec & _ & Hexp).
  split; [exact Hspec | exact Hexp].
Defined.

Lemma cached_names_distinct_witness :
  constructed raster ∧ NoDup (cached_names raster).
Proof. split; [reflexivity | apply (cached_names_distinct raster); reflexivity]. Defined.

Lemma properties_read_resolved_source_witness :
  (constructed raster ∧ _exposure_time_name raster = Some "exposure time") ∧
  read_from (nd raster) "exposure time" (Some "extra_coords") (exposure_time raster).
Proof.
  split; [split; reflexivity|].
  destruct (properties_read_resolved_source raster eq_refl) as (_ & _ & _ & _ & Hexp).
  exact (Hexp "exposure time" eq_refl).
Defined.

Lemma unresolved_properties_raise_witness :
  (constructed spectrum_1d_self ∧
   unmatched SUPPORTED_LONGITUDE_NAMES (world_axis_physical_types (nd spectrum_1d_self))
             (extra_coords (nd spectrum_1d_self))) ∧
  lon spectrum_1d_self =
    Raise (ValueError ("Longitude" +:+ AXIS_NOT_FOUND_ERROR +:+
                       array_str SUPPORTED_LONGITUDE_NAMES)).
Proof.
  assert (Hun : unmatched SUPPORTED_LONGITUDE_NAMES
                  (world_axis_physical_types (nd spectrum_1d_self))
                  (extra_coords (nd spectrum_1d_self))).
  { split; [reflexivity|]. intros items Hitems. discriminate Hitems. }
  split; [split; [reflexivity | exact Hun]|].
  destruct (unresolved_properties_raise spectrum_1d_self eq_refl) as (_ & _ & Hlon).
  exact (Hlon Hun).
Defined.

Lemma correction_without_exposure_time_raises_witness :
  (constructed spectrum_1d_self ∧
   unmatched SUPPORTED_EXPOSURE_NAMES (world_axis_physical_types (nd spectrum_1d_self))
             (extra_coords (nd spectrum_1d_self))) ∧
  apply_exposure_time_correction spectrum_1d_self false false =
    Raise (ValueError ("Exposure time" +:+ AXIS_NOT_FOUND_ERROR +:+
                       array_str SUPPORTED_EXPOSURE_NAMES)).
Proof.
  assert (Hun : unmatched SUPPORTED_EXPOSURE_NAMES
                  (world_axis_physical_types (nd spectrum_1d_self))
                  (extra_coords (nd spectrum_1d_self))).
  { split; [reflexivity|]. intros items Hitems. discriminate Hitems. }
  split; [split; [reflexivity | exact Hun]|].
  exact (correction_without_exposure_time_raises spectrum_1d_self false false eq_refl Hun).
Defined.

Lemma correction_not_applied_twice_witness :
  (constructed raster ∧
   exposure_time_s raster = Ok (NpArray exposures) ∧
   per_exposure (NpArray exposures) (nd_shape (data (nd raster))) ∧
   uncertainty (nd raster) = Some sigma_2x3 ∧
   nd_shape sigma_2x3 = nd_shape (data (nd raster)) ∧
   unit (nd raster) = Some counts ∧
   in_bases "s" (decompose counts) = false) ∧
  ∃ c, apply_exposure_time_correction raster false false = Ok c ∧
       apply_exposure_time_correction c false false =
         Raise (ValueError APPLY_EXPOSURE_TIME_ERROR) ∧
       ∃ c2, apply_exposure_time_correction c false true = Ok c2 ∧
             data (nd c2) =
               rescaled fdiv (rescaled fdiv (data (nd raster)) (NpArray exposures))
                        (NpArray exposures) ∧
             unit (nd c2) = Some (unit_div (unit_div counts u_s) u_s).
Proof.
  assert (Hper : per_exposure (NpArray exposures) (nd_shape (data (nd raster)))).
  { exists 2, [3]. repeat split; simpl; lia. }
  split.
  - repeat split; try reflexivity. exact Hper.
  - apply (correction_not_applied_twice raster (NpArray exposures) sigma_2x3 counts);
      [reflexivity | reflexivity | exact Hper | reflexivity | reflexivity | reflexivity
      | reflexivity].
Defined.

Lemma correction_not_undone_twice_witness :
  (constructed raster_per_second ∧
   exposure_time_s raster_per_second = Ok (NpArray exposures) ∧
   per_exposure (NpArray exposures) (nd_shape (data (nd raster_per_second))) ∧
   uncertainty (nd raster_per_second) = Some sigma_2x3 ∧
   nd_shape sigma_2x3 = nd_shape (data (nd raster_per_second)) ∧
   unit (nd raster_per_second) = Some per_second ∧
   in_bases "s" (decompose (unit_mul per_second u_s)) = false) ∧
  ∃ c, apply_exposure_time_correction raster_per_second true false = Ok c ∧
       apply_exposure_time_correction c true false =
         Raise (ValueError UNDO_EXPOSURE_TIME_ERROR) ∧
       ∃ c2, apply_exposure_time_correction c true true = Ok c2 ∧
             data (nd c2) =
               rescaled fmul (rescaled fmul (data (nd raster_per_second))
                                       (NpArray exposures))
                        (NpArray exposures) ∧
             unit (nd c2) = Some (unit_mul (unit_mul per_second u_s) u_s).
Proof.
  assert (Hper : per_exposure (NpArray exposures)
                   (nd_shape (data (nd raster_per_second)))).
  { exists 2, [3]. repeat split; simpl; lia. }
  split.
  - repeat split; try reflexivity. exact Hper.
  - apply (correction_not_undone_twice raster_per_second (NpArray exposures) sigma_2x3
             per_second);
      [reflexivity | reflexivity | exact Hper | reflexivity | reflexivity | reflexivity
      | reflexivity].
Defined.

Lemma exposures_multiply_exactly (y : Q) idx :
  idx ∈ indices [2; 3] →
  Qeq (fdiv (fmul y (exposure_at (NpArray exposures) idx))
            (exposure_at (NpArray exposures) idx)) y.
Proof.
  intros Hidx. apply elem_of_indices in Hidx.
  inversion Hidx as [|i ? idx' ? Hi _]; subst. simpl.
  destruct i as [|[|i]]; [| |lia]; simpl; field.
Qed.

Lemma undo_then_apply_round_trip_witness :
  (constructed raster_per_second ∧
   exposure_time_s raster_per_second = Ok (NpArray exposures) ∧
   per_exposure (NpArray exposures) (nd_shape (data (nd raster_per_second))) ∧
   uncertainty (nd raster_per_second) = Some sigma_2x3 ∧
   nd_shape sigma_2x3 = nd_shape (data (nd raster_per_second)) ∧
   unit (nd raster_per_second) = Some per_second ∧
   in_bases "s" (decompose (unit_mul per_second u_s)) = false) ∧
  ∃ c1 c2,
    apply_exposure_time_correction raster_per_second true false = Ok c1 ∧
    apply_exposure_time_correction c1 false false = Ok c2 ∧
    nd_shape (data (nd c2)) = nd_shape (data (nd raster_per_second)) ∧
    (∀ idx, idx ∈ indices (nd_shape (data (nd raster_per_second))) →
            Qeq (nd_get (data (nd c2)) idx) (nd_get (data (nd raster_per_second)) idx)) ∧
    ∃ un2, unit (nd c2) = Some un2 ∧ unit_eq un2 per_second.
Proof.
  assert (Hper : per_exposure (NpArray exposures)
                   (nd_shape (data (nd raster_per_second)))).
  { exists 2, [3]. repeat split; simpl; lia. }
  split.
  - repeat split; try reflexivity. exact Hper.
  - apply (undo_then_apply_round_trip raster_per_second (NpArray exposures) sigma_2x3
             per_second Qeq);
      [reflexivity | reflexivity | exact Hper | reflexivity | reflexivity | reflexivity
      | reflexivity | intros idx; apply exposures_multiply_exactly].
Defined.

Lemma correction_along_first_axis_witness :
  (constructed raster_3d ∧
   nd_shape (data (nd raster_3d)) = [2; 1; 2] ∧
   exposure_time_s raster_3d = Ok (NpArray exposures) ∧
   nd_shape exposures = [2] ∧
   uncertainty (nd raster_3d) = Some (mk_ndarray [2; 1; 2] [1; 1; 3; 3]%Q) ∧
   unit (nd raster_3d) = Some counts ∧
   negb false && in_bases "s" (decompose counts) = false) ∧
  ∃ c, apply_exposure_time_correction raster_3d false false = Ok c ∧
       nd_shape (data (nd c)) = [2; 1; 2] ∧
       ∀ i idx, i < 2 → idx ∈ indices [1; 2] →
         nd_get (data (nd c)) (i :: idx) =
           fdiv (nd_get (data (nd raster_3d)) (i :: idx))
                (nth i (nd_flat exposures) inhabitant).
Proof.
  split; [repeat split; reflexivity|].
  destruct (correction_along_first_axis raster_3d exposures
              (mk_ndarray [2; 1; 2] [1; 1; 3; 3]%Q) counts 2 [1; 2] false false)
    as (c & u' & Hc & _ & Hshape & _ & Hget);
    [reflexivity | reflexivity | simpl; lia | reflexivity | reflexivity | reflexivity
    | reflexivity | reflexivity | reflexivity |].
  exists c. split; [exact Hc|]. split; [exact Hshape|].
  intros i idx Hi Hidx. exact (proj1 (Hget i idx Hi Hidx)).
Defined.

Lemma exposure_length_mismatch_raises_witness :
  (nd_shape (data (nd raster_mismatch)) = [2; 3] ∧
   exposure_time_s raster_mismatch = Ok (NpArray (mk_ndarray [3] [2; 3; 4]%Q)) ∧
   uncertainty (nd raster_mismatch) = Some sigma_2x3 ∧
   unit (nd raster_mismatch) = Some counts ∧
   negb false && in_bases "s" (decompose counts) = false) ∧
  ∃ shapes, apply_exposure_time_correction raster_mismatch false false =
              Raise (ValueError ("operands could not be broadcast together" +:+ shapes)).
Proof.
  split; [repeat split; reflexivity|].
  apply (exposure_length_mismatch_raises raster_mismatch (mk_ndarray [3] [2; 3; 4]%Q)
           sigma_2x3 counts 2 3 [3] false false);
    [reflexivity | simpl; lia | reflexivity | reflexivity | lia | lia | lia
    | reflexivity | reflexivity | reflexivity].
Defined.

Lemma correction_without_unit_raises_witness :
  (exposure_time_s raster_unitless = Ok (NpArray exposures) ∧
   per_exposure (NpArray exposures) (nd_shape (data (nd raster_unitless))) ∧
   uncertainty (nd raster_unitless) = Some sigma_2x3 ∧
   nd_shape sigma_2x3 = nd_shape (data (nd raster_unitless)) ∧
   unit (nd raster_unitless) = None) ∧
  ∃ msg, apply_exposure_time_correction raster_unitless false false =
           Raise (AttributeError msg).
Proof.
  assert (Hper : per_exposure (NpArray exposures)
                   (nd_shape (data (nd raster_unitless)))).
  { exists 2, [3]. repeat split; simpl; lia. }
  split.
  - repeat split; try reflexivity. exact Hper.
  - apply (correction_without_unit_raises raster_unitless (NpArray exposures) sigma_2x3
             false false);
      [reflexivity | exact Hper | reflexivity | reflexivity | reflexivity].
Defined.

Lemma find_name_in_array_by_hits_witness :
  hits SUPPORTED_TIME_NAMES [Some "time"; Some "em.wl"] = [Some "time"] ∧
  _find_name_in_array SUPPORTED_TIME_NAMES [Some "time"; Some "em.wl"] = Ok (Some "time") ∧
  "time" ∈ SUPPORTED_TIME_NAMES.
Proof.
  destruct (find_name_in_array_by_hits SUPPORTED_TIME_NAMES [Some "time"; Some "em.wl"])
    as (_ & Hone & Hin & _).
  assert (Hfind : _find_name_in_array SUPPORTED_TIME_NAMES [Some "time"; Some "em.wl"] =
                  Ok (Some "time")) by (apply Hone; reflexivity).
  split; [reflexivity|]. split; [exact Hfind|]. exact (proj1 (Hin "time" Hfind)).
Defined.

Lemma init_raises_iff_ambiguous_witness :
  (SUPPORTED_TIME_NAMES ∈ alias_sets ∧
   ambiguous SUPPORTED_TIME_NAMES (world_axis_physical_types cube_two_times)
             (extra_coords cube_two_times)) ∧
  __init__ cube_two_times =
    Raise (TypeError "only size-1 arrays can be converted to Python scalars").
Proof.
  assert (Hin : SUPPORTED_TIME_NAMES ∈ alias_sets)
    by (apply (list_elem_of_lookup_2 _ 3); reflexivity).
  assert (Hamb : ambiguous SUPPORTED_TIME_NAMES (world_axis_physical_types cube_two_times)
                           (extra_coords cube_two_times))
    by (left; vm_compute; lia).
  split; [split; [exact Hin | exact Hamb]|].
  apply (proj1 (init_raises_iff_ambiguous cube_two_times)).
  exists SUPPORTED_TIME_NAMES. split; [exact Hin | exact Hamb].
Defined.

Lemma force_only_bypasses_guard_witness :
  (unit (nd raster) = Some counts ∧ in_bases "s" (decompose counts) = false) ∧
  apply_exposure_time_correction raster false false =
  apply_exposure_time_correction raster false true.
Proof.
  split; [split; reflexivity|].
  destruct (force_only_bypasses_guard raster false) as (_ & Hsame & _).
  apply (Hsame counts); reflexivity.
Defined.

Lemma single_exposure_array_acts_as_scalar_witness :
  (constructed raster_single_exposure ∧
   nd_shape (data (nd raster_single_exposure)) = [2; 3] ∧
   exposure_time_s raster_single_exposure = Ok (NpArray (mk_ndarray [1] [2]%Q)) ∧
   uncertainty (nd raster_single_exposure) = Some sigma_2x3 ∧
   unit (nd raster_single_exposure) = Some counts ∧
   negb false && in_bases "s" (decompose counts) = false) ∧
  ∃ c, apply_exposure_time_correction raster_single_exposure false false = Ok c ∧
       data (nd c) = rescaled fdiv (data (nd raster_single_exposure)) (NpScalar 2%Q).
Proof.
  split; [repeat split; reflexivity|].
  destruct (single_exposure_array_acts_as_scalar raster_single_exposure
              (mk_ndarray [1] [2]%Q) sigma_2x3 counts 2 [3] false false)
    as (c & Hc & Hdata & _);
    [reflexivity | reflexivity | simpl; lia | reflexivity | reflexivity | reflexivity
    | reflexivity | reflexivity | reflexivity |].
  exists c. split; [exact Hc | exact Hdata].
Defined.
